(** * xpathrecord: read-only, lazily evaluated records over XML nodes

    A shallow embedding of [xpathrecord/__init__.py] (version 0.3) and the
    properties of its field types, its lazy cells and its record factory.

    The program is Python 2: strings are byte strings, a generator is a
    one-shot object on the heap, and a [Lazy] is a mutable object whose
    [__cache] attribute starts out as [None].  Computations run in a state
    and error monad over a [world]: the document, the trace of XPath
    evaluations, and the heaps of [Lazy] objects, record instances and
    generators.

    The XML library (libxml2) is outside the program.  It is modelled by a
    [Document]: the two operations the program calls on a DOM node,
    [xpathEval] and [content].  The document is a component of the world, so
    that its owner may change it between two field accesses.  Every call of
    [xpathEval] is appended to the trace; this is the instrumented adapter
    that counts evaluations.  The builtins [int], [float] and [strptime]
    are parameters ([Builtins]).

    Layout: string primitives; the model ([Section Model]); the sample
    document and record classes of [test/test_simple.py] ([Module Sample]);
    lemmas on strings, worlds, generators and field values; the properties
    C1 to C10 ([Section Claims]); their instances on the sample
    ([Module SampleFacts]). *)

From Stdlib Require Import ZArith Ascii String List Lia Bool.
From stdpp Require Import base option list strings.

Local Open Scope string_scope.
Local Open Scope list_scope.

(** ** Python byte-string primitives *)

Module PyStr.

(** [str.isspace] on a byte of the C locale: TAB, LF, VT, FF, CR, SPACE. *)
Definition is_space (c : ascii) : bool :=
  match c with
  | "009" | "010" | "011" | "012" | "013" | " " => true
  | _ => false
  end%char.

(** [\d] of the [re] module on a byte string: the ten decimal digits. *)
Definition is_digit (c : ascii) : bool :=
  match c with
  | "0" | "1" | "2" | "3" | "4" | "5" | "6" | "7" | "8" | "9" => true
  | _ => false
  end%char.

Definition is_upper (c : ascii) : bool :=
  let n := nat_of_ascii c in (65 <=? n)%nat && (n <=? 90)%nat.

Definition lower_char (c : ascii) : ascii :=
  if is_upper c then ascii_of_nat (nat_of_ascii c + 32) else c.

(** [s.lower()] *)
Fixpoint lower (s : string) : string :=
  match s with
  | "" => ""
  | String c s' => String (lower_char c) (lower s')
  end.

(** [s.lstrip()] *)
Fixpoint lstrip (s : string) : string :=
  match s with
  | "" => ""
  | String c s' => if is_space c then lstrip s' else s
  end.

(** [s.rstrip()] *)
Fixpoint rstrip (s : string) : string :=
  match s with
  | "" => ""
  | String c s' =>
      match rstrip s' with
      | "" => if is_space c then "" else String c ""
      | r => String c r
      end
  end.

(** [s.strip()] *)
Definition strip (s : string) : string := rstrip (lstrip s).

(** [''.join(parts)] *)
Definition join (parts : list string) : string :=
  fold_right String.append "" parts.

(** The last byte of a string, if any. *)
Fixpoint last_char (s : string) : option ascii :=
  match s with
  | "" => None
  | String c "" => Some c
  | String _ s' => last_char s'
  end.

Definition first_char (s : string) : option ascii :=
  match s with
  | "" => None
  | String c _ => Some c
  end.

(** A string is trimmed when neither end is whitespace. *)
Definition trimmed (s : string) : Prop :=
  (forall c, first_char s = Some c -> is_space c = false) /\
  (forall c, last_char s = Some c -> is_space c = false).

(** Every byte of the string is whitespace. *)
Fixpoint blank (s : string) : bool :=
  match s with
  | "" => true
  | String c s' => is_space c && blank s'
  end.

(** [t] is the trim of [s]: [s] is [t] between two runs of whitespace, and
    [t] is trimmed.  This says what trimming is without saying how it is
    computed. *)
Definition trim_of (s t : string) : Prop :=
  exists l r : string,
    s = String.append l (String.append t r) /\
    blank l = true /\ blank r = true /\ trimmed t.

End PyStr.

(** ** Exceptions and the state-and-error monad *)

(** [ValueError] is the exception the program raises itself and the one the
    builtins [int] and [float] raise on a malformed string;
    [AttributeError] is what an instance without the requested attribute
    gives. *)
Inductive exn :=
| ValueError (msg : string)
| AttributeError (name : string).

(** Ways in which the model, not the program, can fail to give an answer: a
    reference that points outside the heap, or a loop that was given too
    little fuel. *)
Inductive fault := BadReference | OutOfFuel.

Inductive outcome (A : Type) :=
| Return (a : A)
| Raise (e : exn)
| Stuck (f : fault).
Arguments Return {A} a.
Arguments Raise {A} e.
Arguments Stuck {A} f.

(** The Python builtins the program calls.  [int] and [float] return a
    number or raise a [ValueError], given here by its message.  [strptime]
    is only ever called under a bare [except:], so all that matters is
    whether it succeeds. *)
Class Builtins (float datetime : Type) := {
  py_int : string -> string + Z;
  py_float : string -> string + float;
  strptime : string -> string -> option datetime
}.

(** The libxml2 surface: [node.xpathEval(xpath)] and [node.content]. *)
Record Document (node : Type) := {
  xpathEval : node -> string -> list node;
  content : node -> string
}.
Arguments xpathEval {node} d n xpath.
Arguments content {node} d n.

Section Model.
Context {node float datetime : Type} `{!Builtins float datetime}.

(** *** Schema: field declarations and record classes *)

(** A [Field] value is the field object after its [__init__] has run: the
    constructor arguments are the private attributes it stored.  A
    [RecordClass] is a subclass of [XPathRecord]: its [Field]-valued class
    attributes, in the order [dir()] reports them, and its
    [record_filter]. *)
Inductive Field :=
| TextField (xpath : string)
| FloatField (xpath : string)
| IntField (xpath : string)
| BooleanField (xpath : string) (true_values false_values : list string)
| DatetimeField (xpath : string) (format : list string)
| NodeExistsField (xpath : string)
| ChildrenField (xpath : string) (cls : RecordClass)
| FirstChildField (xpath : string) (cls : RecordClass)
with RecordClass :=
| Build_RecordClass (cls_fields : list (string * Field))
                    (record_filter : Document node -> node -> bool).

Definition cls_fields (cls : RecordClass) : list (string * Field) :=
  match cls with Build_RecordClass fs _ => fs end.
Definition record_filter (cls : RecordClass) : Document node -> node -> bool :=
  match cls with Build_RecordClass _ p => p end.

(** [XPathRecord.record_filter]: the default accepts every node. *)
Definition default_record_filter : Document node -> node -> bool :=
  fun _ _ => true.

(** *** Values and heap objects *)

Inductive val :=
| VNone
| VStr (s : string)
| VInt (z : Z)
| VFloat (x : float)
| VBool (b : bool)
| VDatetime (d : datetime)
| VRecord (r : nat)      (* reference to an [XPathRecord] instance *)
| VGen (g : nat).        (* reference to a generator object *)

(** [v is None] *)
Definition is_None (v : val) : bool :=
  match v with VNone => true | _ => false end.

(** A [Lazy] object: [__cache], [__dom], [__field]. *)
Record Lazy := {
  cache : val;
  lz_dom : node;
  lz_field : Field
}.

(** An [XPathRecord] instance: its class, its [__dom], and the instance
    attributes that [__init__] set, each a reference to a [Lazy] object.
    (The dictionaries [__cache] and [__fields] of the instance are created
    empty and never used.) *)
Record RecordObj := {
  r_cls : RecordClass;
  r_dom : node;
  r_attrs : list (string * nat)
}.

(** The frame of a suspended [XPathRecord.records] generator. *)
Inductive records_gen :=
| R_new (cls : RecordClass) (dom : node) (xpath : string)
| R_running (cls : RecordClass) (rest : list node)
| R_done.

(** The frame of a suspended [ChildrenField.value] generator; [inner] is
    the generator of the inner [for] loop. *)
Inductive children_gen :=
| C_new (cls : RecordClass) (dom : node) (xpath : string)
| C_running (cls : RecordClass) (rest : list node) (inner : records_gen)
| C_done.

Inductive generator :=
| GRecords (g : records_gen)
| GChildren (g : children_gen).

Record world := {
  doc : Document node;
  trace : list (node * string);
  lazies : list Lazy;
  objects : list RecordObj;
  gens : list generator
}.

Definition M (A : Type) : Type := world -> outcome A * world.

Definition ret {A} (a : A) : M A := fun w => (Return a, w).
Definition raise {A} (e : exn) : M A := fun w => (Raise e, w).
Definition stuck {A} (f : fault) : M A := fun w => (Stuck f, w).
Definition bind {A B} (c : M A) (k : A -> M B) : M B :=
  fun w =>
    match c w with
    | (Return a, w') => k a w'
    | (Raise e, w') => (Raise e, w')
    | (Stuck f, w') => (Stuck f, w')
    end.

#[local] Instance M_ret : MRet M := @ret.
#[local] Instance M_bind : MBind M := fun A B k c => bind c k.
#[local] Instance M_fmap : FMap M := fun A B f c => bind c (fun a => ret (f a)).

(** *** World updates

    A heap is a list and a reference is an index in it; a new object goes
    to the end, so its reference is the old length. *)

Definition add_trace (tr : list (node * string)) (w : world) : world :=
  {| doc := doc w; trace := trace w ++ tr; lazies := lazies w;
     objects := objects w; gens := gens w |}.

Definition push_lazies (ls : list Lazy) (w : world) : world :=
  {| doc := doc w; trace := trace w; lazies := lazies w ++ ls;
     objects := objects w; gens := gens w |}.

Definition push_object (o : RecordObj) (w : world) : world :=
  {| doc := doc w; trace := trace w; lazies := lazies w;
     objects := objects w ++ [o]; gens := gens w |}.

Definition push_gen (g : generator) (w : world) : world :=
  {| doc := doc w; trace := trace w; lazies := lazies w;
     objects := objects w; gens := gens w ++ [g] |}.

Definition with_cache (v : val) (lz : Lazy) : Lazy :=
  {| cache := v; lz_dom := lz_dom lz; lz_field := lz_field lz |}.

Definition store_cache (c : nat) (v : val) (w : world) : world :=
  {| doc := doc w; trace := trace w;
     lazies := alter (with_cache v) c (lazies w);
     objects := objects w; gens := gens w |}.

Definition store_gen (g : nat) (st : generator) (w : world) : world :=
  {| doc := doc w; trace := trace w; lazies := lazies w;
     objects := objects w; gens := <[g := st]> (gens w) |}.

(** The caller replaces the document. *)
Definition set_doc (d : Document node) (w : world) : world :=
  {| doc := d; trace := trace w; lazies := lazies w;
     objects := objects w; gens := gens w |}.

(** *** The adapter, instrumented *)

(** [dom.xpathEval(xpath)]: libxml2 returns a Python list.  The call is
    recorded in the trace. *)
Definition xpath_eval (dom : node) (xpath : string) : M (list node) :=
  fun w => (Return (xpathEval (doc w) dom xpath), add_trace [(dom, xpath)] w).

Definition get_doc : M (Document node) :=
  fun w => (Return (doc w), w).

(** A builtin's result, raised or returned in the current world. *)
Definition lift {A} (r : string + A) : M A :=
  fun w =>
    match r with
    | inl msg => (Raise (ValueError msg), w)
    | inr a => (Return a, w)
    end.

(** *** Heap allocation and update *)

Definition alloc_Lazy (lz : Lazy) : M nat :=
  fun w => (Return (length (lazies w)), push_lazies [lz] w).

Definition alloc_object (o : RecordObj) : M nat :=
  fun w => (Return (length (objects w)), push_object o w).

Definition alloc_gen (g : generator) : M nat :=
  fun w => (Return (length (gens w)), push_gen g w).

(** [self.__cache = v] on the [Lazy] object at [c] *)
Definition set_cache (c : nat) (v : val) : M unit :=
  fun w => (Return tt, store_cache c v w).

(** The frame of the generator at [g] after it was resumed. *)
Definition set_gen (g : nat) (st : generator) : M unit :=
  fun w => (Return tt, store_gen g st w).

(** *** [Lazy.__init__] and [XPathRecord.__init__] *)

Definition Lazy_init (dom : node) (field : Field) : M nat :=
  alloc_Lazy {| cache := VNone; lz_dom := dom; lz_field := field |}.

(** The loop of [XPathRecord.__init__] over the attributes that are [Field]
    instances: each becomes an instance attribute holding a new [Lazy]. *)
Fixpoint bind_fields (dom : node) (fs : list (string * Field))
  : M (list (string * nat)) :=
  match fs with
  | [] => mret []
  | (name, field) :: fs' =>
      c ← Lazy_init dom field;
      attrs ← bind_fields dom fs';
      mret ((name, c) :: attrs)
  end.

Definition XPathRecord_init (cls : RecordClass) (dom : node) : M nat :=
  attrs ← bind_fields dom (cls_fields cls);
  alloc_object {| r_cls := cls; r_dom := dom; r_attrs := attrs |}.

(** *** The generator [XPathRecord.records] *)

(** The [for node in ...] loop, entered or resumed with [nodes] left to
    visit: it runs up to the next [yield] (a new record and the frame to
    resume from) or to the end of the list ([None]: the generator returns,
    which the caller sees as [StopIteration]). *)
Fixpoint records_loop (cls : RecordClass) (nodes : list node)
  : M (option nat * records_gen) :=
  match nodes with
  | [] => mret (None, R_done)
  | n :: rest =>
      d ← get_doc;
      if record_filter cls d n
      then r ← XPathRecord_init cls n; mret (Some r, R_running cls rest)
      else records_loop cls rest
  end.

(** One resumption of a [records] generator. *)
Definition records_next (g : records_gen) : M (option nat * records_gen) :=
  match g with
  | R_new cls dom xpath =>
      nodes ← xpath_eval dom xpath;
      records_loop cls nodes
  | R_running cls rest => records_loop cls rest
  | R_done => mret (None, R_done)
  end.

(** [cls.records(dom, xpath)]: calling a generator function runs none of its
    body; it creates the generator object.  (The default [xpath = None] is
    not a value [xpathEval] accepts; every call passes a string.) *)
Definition records (cls : RecordClass) (dom : node) (xpath : string) : M nat :=
  alloc_gen (GRecords (R_new cls dom xpath)).

(** *** The generator [ChildrenField.value] *)

(** The outer [for n in ...] loop with [outer] left to visit.  For each [n]
    it creates the inner generator [cls.records(n, '.')] and resumes it
    once; what that yields is yielded on. *)
Fixpoint children_loop (cls : RecordClass) (outer : list node)
  : M (option nat * children_gen) :=
  match outer with
  | [] => mret (None, C_done)
  | n :: rest =>
      '(x, inner) ← records_next (R_new cls n ".");
      match x with
      | Some r => mret (Some r, C_running cls rest inner)
      | None => children_loop cls rest
      end
  end.

(** One resumption of a [ChildrenField.value] generator. *)
Definition children_next (g : children_gen) : M (option nat * children_gen) :=
  match g with
  | C_new cls dom xpath =>
      outer ← xpath_eval dom xpath;
      children_loop cls outer
  | C_running cls rest inner =>
      '(x, inner') ← records_next inner;
      match x with
      | Some r => mret (Some r, C_running cls rest inner')
      | None => children_loop cls rest
      end
  | C_done => mret (None, C_done)
  end.

(** [next(g)] on a generator object; [None] stands for [StopIteration]. *)
Definition next (g : nat) : M (option val) :=
  fun w =>
    match gens w !! g with
    | None => (Stuck BadReference, w)
    | Some (GRecords st) =>
        ('(x, st') ← records_next st;
         _ ← set_gen g (GRecords st');
         mret (VRecord <$> x)) w
    | Some (GChildren st) =>
        ('(x, st') ← children_next st;
         _ ← set_gen g (GChildren st');
         mret (VRecord <$> x)) w
    end.

(** [list(g)]: resume [g] until it stops. *)
Fixpoint list_of (fuel : nat) (g : nat) : M (list val) :=
  match fuel with
  | 0 => stuck OutOfFuel
  | S fuel' =>
      x ← next g;
      match x with
      | None => mret []
      | Some v => vs ← list_of fuel' g; mret (v :: vs)
      end
  end.

(** *** Field values *)

(** [TextField.value] *)
Definition TextField_value (xpath : string) (dom : node) : M string :=
  nodes ← xpath_eval dom xpath;
  d ← get_doc;
  mret (PyStr.strip (PyStr.join (map (fun n => PyStr.strip (content d n)) nodes))).

(** [FloatField.value] *)
Definition FloatField_value (xpath : string) (dom : node) : M float :=
  s ← TextField_value xpath dom;
  lift (py_float s).

(** [IntField.value] *)
Definition IntField_value (xpath : string) (dom : node) : M Z :=
  s ← TextField_value xpath dom;
  lift (py_int s).

Definition DEFAULT_TRUE_VALUES : list string := ["y"; "yes"; "true"; "t"; "ok"].
Definition DEFAULT_FALSE_VALUES : list string := ["n"; "no"; "false"; "f"; "nil"].

(** [BooleanField.__init__]: [None] selects the defaults, a list is stored
    lower-cased. *)
Definition BooleanField_init (xpath : string)
    (true_values false_values : option (list string)) : Field :=
  BooleanField xpath
    (match true_values with
     | None => DEFAULT_TRUE_VALUES
     | Some l => map PyStr.lower l
     end)
    (match false_values with
     | None => DEFAULT_FALSE_VALUES
     | Some l => map PyStr.lower l
     end).

(** [BooleanField.value] *)
Definition BooleanField_value (xpath : string) (true_values false_values : list string)
    (dom : node) : M bool :=
  t ← TextField_value xpath dom;
  let s := PyStr.lower (PyStr.strip t) in
  if bool_decide (s ∈ true_values) then mret true
  else if bool_decide (s ∈ false_values) then mret false
  else raise (ValueError ("The value (" +:+ s +:+ ") is neither true nor false")).

Definition DEFAULT_FORMATS : list string :=
  ["%Y-%m-%d %H:%M:%S"; "%Y-%m-%d %H:%M"; "%Y-%m-%d"; "%Y%m%d"; "%m/%d/%Y"].

(** The longest prefix of digits, and what follows it. *)
Fixpoint span_digits (s : string) : string * string :=
  match s with
  | "" => ("", "")
  | String c s' =>
      if PyStr.is_digit c
      then let '(d, r) := span_digits s' in (String c d, r)
      else ("", s)
  end.

(** [$] without [re.MULTILINE]: the end of the string, or just before a
    newline that is the last byte. *)
Definition at_dollar (s : string) : bool :=
  match s with
  | "" => true
  | String "010"%char "" => true
  | _ => false
  end.

(** A match of [\.\d+ -\d+$] that starts at the first byte of [s]; the result
    is the text after the match.  Each [\d+] is followed by a byte that is
    not a digit (a space, or the end), so the greedy match is the only one. *)
Definition kluge_match (s : string) : option string :=
  match s with
  | String "."%char s1 =>
      let '(d1, s2) := span_digits s1 in
      match d1, s2 with
      | String _ _, String " "%char (String "-"%char s3) =>
          let '(d2, s4) := span_digits s3 in
          match d2 with
          | String _ _ => if at_dollar s4 then Some s4 else None
          | "" => None
          end
      | _, _ => None
      end
  | _ => None
  end.

(** [__kluge_date]: [re.sub] removes the leftmost match; the pattern ends at
    [$], so what is left after a match is empty or one newline. *)
Fixpoint kluge_date (s : string) : string :=
  match kluge_match s with
  | Some rest => rest
  | None =>
      match s with
      | "" => ""
      | String c s' => String c (kluge_date s')
      end
  end.

(** The [format] argument of [DatetimeField.__init__]. *)
Inductive format_arg :=
| FormatStr (fmt : string)
| FormatList (fmts : list string).

(** The default of the [format] argument: [[]]. *)
Definition default_format : format_arg := FormatList [].

(** [DatetimeField.__init__] *)
Definition DatetimeField_init (xpath : string) (format : format_arg) : Field :=
  DatetimeField xpath
    (match format with
     | FormatStr fmt => [fmt]
     | FormatList fmts => fmts
     end).

(** The [for fmt in ...: try: return strptime(s, fmt) except: pass] loop. *)
Fixpoint try_formats (s : string) (fmts : list string) : option datetime :=
  match fmts with
  | [] => None
  | fmt :: rest =>
      match strptime s fmt with
      | Some d => Some d
      | None => try_formats s rest
      end
  end.

(** [DatetimeField.value] *)
Definition DatetimeField_value (xpath : string) (format : list string)
    (dom : node) : M datetime :=
  t ← TextField_value xpath dom;
  let s := kluge_date t in
  match try_formats s (format ++ DEFAULT_FORMATS) with
  | Some d => mret d
  | None => raise (ValueError ("Can not parse date: " +:+ s))
  end.

(** [NodeExistsField.value] *)
Definition NodeExistsField_value (xpath : string) (dom : node) : M bool :=
  nodes ← xpath_eval dom xpath;
  mret (0 <? list_sum (map (fun _ => 1) nodes))%nat.

(** [ChildrenField.value] is a generator function: the call creates the
    generator and runs nothing. *)
Definition ChildrenField_value (xpath : string) (cls : RecordClass)
    (dom : node) : M nat :=
  alloc_gen (GChildren (C_new cls dom xpath)).

(** The loops of [FirstChildField.value]: the inner generator is resumed
    once; if it yields, that record is returned, otherwise the outer loop
    goes on.  Falling off the end returns [None]. *)
Fixpoint first_child_loop (cls : RecordClass) (outer : list node) : M val :=
  match outer with
  | [] => mret VNone
  | n :: rest =>
      '(x, _) ← records_next (R_new cls n ".");
      match x with
      | Some r => mret (VRecord r)
      | None => first_child_loop cls rest
      end
  end.

(** [FirstChildField.value] *)
Definition FirstChildField_value (xpath : string) (cls : RecordClass)
    (dom : node) : M val :=
  outer ← xpath_eval dom xpath;
  first_child_loop cls outer.

(** [field.value(dom)], dispatched on the class of [field]. *)
Definition value (field : Field) (dom : node) : M val :=
  match field with
  | TextField xpath => VStr <$> TextField_value xpath dom
  | FloatField xpath => VFloat <$> FloatField_value xpath dom
  | IntField xpath => VInt <$> IntField_value xpath dom
  | BooleanField xpath tv fv => VBool <$> BooleanField_value xpath tv fv dom
  | DatetimeField xpath format => VDatetime <$> DatetimeField_value xpath format dom
  | NodeExistsField xpath => VBool <$> NodeExistsField_value xpath dom
  | ChildrenField xpath cls => VGen <$> ChildrenField_value xpath cls dom
  | FirstChildField xpath cls => FirstChildField_value xpath cls dom
  end.

(** *** [Lazy.__call__] *)

Definition Lazy_call (c : nat) : M val :=
  fun w =>
    match lazies w !! c with
    | None => (Stuck BadReference, w)
    | Some lz =>
        if is_None (cache lz)
        then (v ← value (lz_field lz) (lz_dom lz);
              _ ← set_cache c v;
              mret v) w
        else (Return (cache lz), w)
    end.

(** [record.name()]: the instance attribute [name] is a [Lazy]; call it. *)
Definition call_field (r : nat) (name : string) : M val :=
  fun w =>
    match objects w !! r with
    | None => (Stuck BadReference, w)
    | Some o =>
        match list_find (fun a => a.1 = name) (r_attrs o) with
        | None => (Raise (AttributeError name), w)
        | Some (_, (_, c)) => Lazy_call c w
        end
    end.

(** *** Callers *)

(** [try: c() except Exception, e: ...]: the outcome of [c] as a value. *)
Definition attempt {A} (c : M A) : M (outcome A) :=
  fun w => let '(o, w') := c w in (Return o, w').

(** [n] attempts of [c], one after the other. *)
Fixpoint attempts {A} (n : nat) (c : M A) : M (list (outcome A)) :=
  match n with
  | 0 => mret []
  | S n' => o ← attempt c; os ← attempts n' c; mret (o :: os)
  end.

(** [list(cell())], for a cell whose value is a generator. *)
Definition list_of_call (fuel : nat) (c : nat) : M (list val) :=
  v ← Lazy_call c;
  match v with
  | VGen g => list_of fuel g
  | _ => stuck BadReference
  end.

(** *** Vocabulary of the statements *)

(** The text a [TextField] extracts from [dom] in the document [d]. *)
Definition text_of (d : Document node) (dom : node) (xpath : string) : string :=
  PyStr.strip
    (PyStr.join (map (fun n => PyStr.strip (content d n)) (xpathEval d dom xpath))).

(** The nodes of [nodes] that the filter of [cls] accepts, in order. *)
Definition accepted (cls : RecordClass) (d : Document node) (nodes : list node)
  : list node :=
  List.filter (record_filter cls d) nodes.

(** The nodes that survive below the outer matches [outer]: for each outer
    node the accepted results of ['.'], flattened in order. *)
Definition survivors (cls : RecordClass) (d : Document node) (outer : list node)
  : list node :=
  flat_map (fun n => accepted cls d (xpathEval d n ".")) outer.

(** The ['.'] evaluations for the outer nodes [outer]. *)
Definition dot_calls (outer : list node) : list (node * string) :=
  map (fun n => (n, ".")) outer.

(** The [Lazy] objects that [XPathRecord.__init__] creates for [dom], and
    the instance attributes that refer to them from [base] on. *)
Definition new_cells (dom : node) (fs : list (string * Field)) : list Lazy :=
  map (fun a => {| cache := VNone; lz_dom := dom; lz_field := a.2 |}) fs.

Fixpoint new_attrs (base : nat) (fs : list (string * Field)) : list (string * nat) :=
  match fs with
  | [] => []
  | a :: fs' => (a.1, base) :: new_attrs (S base) fs'
  end.

Definition new_object (cls : RecordClass) (dom : node) (base : nat) : RecordObj :=
  {| r_cls := cls; r_dom := dom; r_attrs := new_attrs base (cls_fields cls) |}.

(** The world after one record of [cls] was constructed over [dom]. *)
Definition new_record (cls : RecordClass) (dom : node) (w : world) : world :=
  push_object (new_object cls dom (length (lazies w)))
    (push_lazies (new_cells dom (cls_fields cls)) w).

(** The world after a record was constructed over each of [nodes] in turn. *)
Definition build_records (cls : RecordClass) (nodes : list node) (w : world)
  : world :=
  fold_left (fun w n => new_record cls n w) nodes w.

(** The first node of [nodes] that the filter accepts, and the nodes after
    it. *)
Fixpoint next_accepted (cls : RecordClass) (d : Document node) (nodes : list node)
  : option (node * list node) :=
  match nodes with
  | [] => None
  | n :: rest =>
      if record_filter cls d n then Some (n, rest) else next_accepted cls d rest
  end.

(** The first survivor below [outer]: the outer nodes tried until it was
    found (the last of them is the one it was found under), the survivor,
    the results of ['.'] after it, and the outer nodes not yet visited. *)
Fixpoint first_hit (cls : RecordClass) (d : Document node) (outer : list node)
  : option (list node * node * list node * list node) :=
  match outer with
  | [] => None
  | n :: rest =>
      match next_accepted cls d (xpathEval d n ".") with
      | Some (m, inner) => Some ([n], m, inner, rest)
      | None =>
          match first_hit cls d rest with
          | Some (tried, m, inner, rest') => Some (n :: tried, m, inner, rest')
          | None => None
          end
      end
  end.

(** What a suspended generator will still yield records over, and the XPath
    evaluations it will still make, if it is resumed until it stops while the
    document is [d]. *)
Definition r_pending (d : Document node) (st : records_gen) : list node :=
  match st with
  | R_new cls dom xpath => accepted cls d (xpathEval d dom xpath)
  | R_running cls rest => accepted cls d rest
  | R_done => []
  end.

Definition r_calls (st : records_gen) : list (node * string) :=
  match st with
  | R_new _ dom xpath => [(dom, xpath)]
  | _ => []
  end.

Definition pending (d : Document node) (g : generator) : list node :=
  match g with
  | GRecords st => r_pending d st
  | GChildren (C_new cls dom xpath) => survivors cls d (xpathEval d dom xpath)
  | GChildren (C_running cls rest inner) => r_pending d inner ++ survivors cls d rest
  | GChildren C_done => []
  end.

Definition calls (d : Document node) (g : generator) : list (node * string) :=
  match g with
  | GRecords st => r_calls st
  | GChildren (C_new cls dom xpath) => (dom, xpath) :: dot_calls (xpathEval d dom xpath)
  | GChildren (C_running cls rest inner) => r_calls inner ++ dot_calls rest
  | GChildren C_done => []
  end.

(** The frame of a generator that has stopped. *)
Definition done (g : generator) : generator :=
  match g with
  | GRecords _ => GRecords R_done
  | GChildren _ => GChildren C_done
  end.

(** The generator constructs records of class [cls]. *)
Definition r_makes (cls : RecordClass) (st : records_gen) : Prop :=
  match st with
  | R_new c _ _ | R_running c _ => c = cls
  | R_done => True
  end.

Definition makes (cls : RecordClass) (g : generator) : Prop :=
  match g with
  | GRecords st => r_makes cls st
  | GChildren (C_new c _ _) => c = cls
  | GChildren (C_running c _ inner) => c = cls /\ r_makes cls inner
  | GChildren C_done => True
  end.

(** The references of [k] objects allocated one after the other from
    [base] on. *)
Definition fresh_records (base k : nat) : list val :=
  map VRecord (seq base k).

(** Does the string contain a dot? *)
Fixpoint has_dot (s : string) : bool :=
  match s with
  | "" => false
  | String c s' => Ascii.eqb c "." || has_dot s'
  end.

Fixpoint all_digits (s : string) : bool :=
  match s with
  | "" => true
  | String c s' => PyStr.is_digit c && all_digits s'
  end.

(** The shape the pattern [\.\d+ -\d+] describes: a dot, digits, a space, a
    minus sign, digits. *)
Definition kluge_suffix (m : string) : Prop :=
  exists d1 d2 : string,
    d1 <> "" /\ d2 <> "" /\ all_digits d1 = true /\ all_digits d2 = true /\
    m = "." +:+ d1 +:+ " -" +:+ d2.

(** The XPath of a field. *)
Definition xpath_of (field : Field) : string :=
  match field with
  | TextField x | FloatField x | IntField x | BooleanField x _ _
  | DatetimeField x _ | NodeExistsField x | ChildrenField x _
  | FirstChildField x _ => x
  end.

(** The fields whose value is computed from the text of one evaluation. *)
Definition is_scalar (field : Field) : bool :=
  match field with
  | ChildrenField _ _ | FirstChildField _ _ => false
  | _ => true
  end.

Definition is_Children (field : Field) : bool :=
  match field with
  | ChildrenField _ _ => true
  | _ => false
  end.

End Model.

(** ** A concrete world: the sample of [test/test_simple.py]

    The builtins are instantiated by small decimal parsers, the document by
    the node table of [SAMPLE_XML]. *)

Module Sample.

(** Decimal digits to a number, most significant first. *)
Fixpoint digits_value (acc : Z) (s : string) : option Z :=
  match s with
  | "" => Some acc
  | String c s' =>
      if PyStr.is_digit c
      then digits_value (10 * acc + Z.of_nat (nat_of_ascii c - 48)) s'
      else None
  end.

Definition number (s : string) : option Z :=
  match s with
  | "" => None
  | _ => digits_value 0 s
  end.

(** [int(s)] on the decimal literals: blanks around, an optional sign,
    digits. *)
Definition sample_int (s : string) : string + Z :=
  let t := PyStr.strip s in
  let r :=
    match t with
    | String "-"%char t' => Z.opp <$> number t'
    | String "+"%char t' => number t'
    | _ => number t
    end in
  match r with
  | Some z => inr z
  | None => inl ("invalid literal for int() with base 10: " +:+ s)
  end.

(** A float of the sample: a decimal mantissa and the number of digits after
    the point. *)
Definition sample_float_t : Type := Z * nat.

Fixpoint split_point (s : string) : string * option string :=
  match s with
  | "" => ("", None)
  | String "."%char s' => ("", Some s')
  | String c s' => let '(a, b) := split_point s' in (String c a, b)
  end.

(** [float(s)] on the literals [digits] and [digits.digits]. *)
Definition sample_float (s : string) : string + sample_float_t :=
  let t := PyStr.strip s in
  let r :=
    match split_point t with
    | (a, None) => (fun z => (z, 0)) <$> number a
    | (a, Some b) => (fun z => (z, String.length b)) <$> number (a +:+ b)
    end in
  match r with
  | Some x => inr x
  | None => inl ("could not convert string to float: " +:+ s)
  end.

Record sample_datetime := {
  year : Z; month : Z; day : Z; hour : Z; minute : Z; second : Z
}.

Definition epoch : sample_datetime :=
  {| year := 1900; month := 1; day := 1; hour := 0; minute := 0; second := 0 |}.

Definition date_2006_10_28 : sample_datetime :=
  {| year := 2006; month := 10; day := 28; hour := 0; minute := 0; second := 0 |}.

(** Reads exactly [n] digits. *)
Definition take_number (n : nat) (s : string) : option (Z * string) :=
  let a := String.substring 0 n s in
  if (String.length a =? n)%nat
  then (fun z => (z, String.substring n (String.length s - n) s)) <$> number a
  else None.

Definition in_range (lo hi z : Z) : bool := (lo <=? z)%Z && (z <=? hi)%Z.

(** [strptime] for the directives of [DEFAULT_FORMATS], each read at its
    full width; any other byte of the format stands for itself. *)
Fixpoint sample_strptime_go (fuel : nat) (s fmt : string) (d : sample_datetime)
  : option sample_datetime :=
  match fuel with
  | 0 => None
  | S fuel' =>
      match fmt with
      | "" => match s with "" => Some d | _ => None end
      | String "%"%char (String k fmt') =>
          let field (w : nat) (lo hi : Z) (upd : Z -> sample_datetime) :=
            match take_number w s with
            | Some (z, s') =>
                if in_range lo hi z then sample_strptime_go fuel' s' fmt' (upd z) else None
            | None => None
            end in
          match k with
          | "Y"%char => field 4 0%Z 9999%Z (fun z =>
              {| year := z; month := month d; day := day d;
                 hour := hour d; minute := minute d; second := second d |})
          | "m"%char => field 2 1%Z 12%Z (fun z =>
              {| year := year d; month := z; day := day d;
                 hour := hour d; minute := minute d; second := second d |})
          | "d"%char => field 2 1%Z 31%Z (fun z =>
              {| year := year d; month := month d; day := z;
                 hour := hour d; minute := minute d; second := second d |})
          | "H"%char => field 2 0%Z 23%Z (fun z =>
              {| year := year d; month := month d; day := day d;
                 hour := z; minute := minute d; second := second d |})
          | "M"%char => field 2 0%Z 59%Z (fun z =>
              {| year := year d; month := month d; day := day d;
                 hour := hour d; minute := z; second := second d |})
          | "S"%char => field 2 0%Z 61%Z (fun z =>
              {| year := year d; month := month d; day := day d;
                 hour := hour d; minute := minute d; second := z |})
          | _ => None
          end
      | String c fmt' =>
          match s with
          | String c' s' =>
              if Ascii.eqb c c' then sample_strptime_go fuel' s' fmt' d else None
          | "" => None
          end
      end
  end.

Definition sample_strptime (s fmt : string) : option sample_datetime :=
  sample_strptime_go (S (String.length fmt)) s fmt epoch.

#[export] Instance sample_builtins : Builtins sample_float_t sample_datetime := {|
  py_int := sample_int;
  py_float := sample_float;
  strptime := sample_strptime
|}.

(** The nodes of [SAMPLE_XML]: the document, its elements, and their
    attribute and text nodes.  The four [bar] and the two [baz] elements are
    numbered in document order. *)
Inductive node :=
| n_doc | n_foo
| n_name | n_name_text | n_name_date
| n_bar (i : nat) | n_bar_arg (i : nat) | n_bar_date (i : nat)
| n_stuff | n_stuff_text
| n_baz (i : nat) | n_baz_text (i : nat) | n_baz_bool (i : nat) | n_baz_average (i : nat).

Definition bars : list node := [n_bar 1; n_bar 2; n_bar 3; n_bar 4].
Definition bazs : list node := [n_baz 1; n_baz 2].

Definition sample_xpathEval (n : node) (xpath : string) : list node :=
  if String.eqb xpath "." then [n] else
  match n with
  | n_doc =>
      if String.eqb xpath "/foo" then [n_foo]
      else if String.eqb xpath "//bar" then bars
      else if String.eqb xpath "//baz" then bazs
      else []
  | n_foo =>
      if String.eqb xpath "name/text()" then [n_name_text]
      else if String.eqb xpath "name/@date" then [n_name_date]
      else if String.eqb xpath "bar" then bars
      else if String.eqb xpath "baz" then bazs
      else []
  | n_bar i =>
      if String.eqb xpath "@arg" then [n_bar_arg i]
      else if String.eqb xpath "@date" then [n_bar_date i]
      else if String.eqb xpath "stuff" then (if (i =? 4)%nat then [n_stuff] else [])
      else if String.eqb xpath "stuff/text()" then (if (i =? 4)%nat then [n_stuff_text] else [])
      else []
  | n_stuff => if String.eqb xpath "text()" then [n_stuff_text] else []
  | n_baz i =>
      if String.eqb xpath "text()" then [n_baz_text i]
      else if String.eqb xpath "@bool" then [n_baz_bool i]
      else if String.eqb xpath "@average" then [n_baz_average i]
      else []
  | _ => []
  end.

Definition sample_content (n : node) : string :=
  match n with
  | n_name | n_name_text => "This is my name"
  | n_name_date => "Bogus Format"
  | n_bar_arg 1 => "1"
  | n_bar_arg 2 => "2"
  | n_bar_arg 3 => "stuff"
  | n_bar_arg 4 => "3"
  | n_bar_date 1 => "20061028"
  | n_bar_date 2 => "2006-10-28"
  | n_bar_date 3 => "10/28/2006"
  | n_bar_date 4 => "2006-10-28 00:00:00"
  | n_bar 4 | n_stuff | n_stuff_text => "I am inside bar"
  | n_baz 1 | n_baz_text 1 => "Hello World"
  | n_baz 2 | n_baz_text 2 => "Goodbye World"
  | n_baz_bool 1 => "y"
  | n_baz_bool 2 => "whatever"
  | n_baz_average 1 => "1.234"
  | n_baz_average 2 => "badfloat"
  | _ => ""
  end.

Definition sample_doc : Document node :=
  {| xpathEval := sample_xpathEval; content := sample_content |}.

(** The same document after its owner gave [name] a well-formed date. *)
Definition repaired_doc : Document node :=
  {| xpathEval := sample_xpathEval;
     content := fun n => match n with
                         | n_name_date => "2006-10-28"
                         | _ => sample_content n
                         end |}.

(** The sample with whitespace around the texts of the two [baz] elements
    ([<baz ...> Hello World&#10;</baz>] and [<baz ...>&#9;Goodbye World </baz>]),
    and with [baz/text()] known below [foo]. *)
Definition spaced_doc : Document node :=
  {| xpathEval := fun n xpath =>
       match n with
       | n_foo =>
           if String.eqb xpath "baz/text()" then [n_baz_text 1; n_baz_text 2]
           else sample_xpathEval n xpath
       | _ => sample_xpathEval n xpath
       end;
     content := fun n =>
       match n with
       | n_baz_text 1 => " Hello World" +:+ String "010"%char ""
       | n_baz_text 2 => String "009"%char "Goodbye World "
       | _ => sample_content n
       end |}.

(** The record classes of the test. *)
Definition Stuff : @RecordClass node :=
  Build_RecordClass [("text", TextField "text()")] default_record_filter.

(** [Bar.record_filter]: does [int(node.prop('arg'))] succeed? *)
Definition Bar_record_filter (d : Document node) (n : node) : bool :=
  match xpathEval d n "@arg" with
  | [a] => match sample_int (content d a) with inr _ => true | inl _ => false end
  | _ => false
  end.

Definition Bar : @RecordClass node :=
  Build_RecordClass
    [("arg", TextField "@arg");
     ("date", DatetimeField_init "@date" (FormatStr "junk"));
     ("has_stuff", NodeExistsField "stuff/text()");
     ("int_arg", IntField "@arg");
     ("stuff", TextField "stuff/text()");
     ("stuffs", ChildrenField "stuff" Stuff);
     ("textbool", BooleanField_init "stuff/text()" (Some ["i am inside bar"]) (Some [""]))]
    Bar_record_filter.

Definition Baz : @RecordClass node :=
  Build_RecordClass
    [("average", FloatField "@average");
     ("boolean", BooleanField_init "@bool" None None);
     ("content", TextField "text()")]
    default_record_filter.

Definition Foo : @RecordClass node :=
  Build_RecordClass
    [("bar", ChildrenField "bar" Bar);
     ("baz", FirstChildField "baz" Baz);
     ("date", DatetimeField_init "name/@date" default_format);
     ("name", TextField "name/text()")]
    default_record_filter.

(** A schema that is not in the tests: the first [stuff] below a [bar], and
    the [arg] of the [bar] as an integer. *)
Definition Probe : @RecordClass node :=
  Build_RecordClass
    [("first_stuff", FirstChildField "stuff" Stuff);
     ("int_arg", IntField "@arg")]
    default_record_filter.

(** Before the program has run: no object on any heap, nothing evaluated. *)
Definition start (d : Document node) : @world node sample_float_t sample_datetime :=
  {| doc := d; trace := []; lazies := []; objects := []; gens := [] |}.

(** The world once a record of [cls] was constructed over [n]; the record is
    object 0 and its cells are numbered in the order of the class's fields. *)
Definition world_of (cls : @RecordClass node) (n : node)
  : @world node sample_float_t sample_datetime :=
  (XPathRecord_init cls n (start sample_doc)).2.

(** The result of a computation, and the world it leaves. *)
Definition result {A} (c : @M node sample_float_t sample_datetime A)
    (w : world) : outcome A := (c w).1.
Definition after {A} (c : @M node sample_float_t sample_datetime A)
    (w : world) : world := (c w).2.

End Sample.

(** ** Properties of the string primitives *)

Module PyStrFacts.
Import PyStr.

Lemma rstrip_idem s : rstrip (rstrip s) = rstrip s.
Proof.
  induction s as [|c s IH]; [reflexivity|].
  simpl. destruct (rstrip s) as [|c' r] eqn:E.
  - destruct (is_space c) eqn:Ec; simpl; [reflexivity|]. now rewrite Ec.
  - change (rstrip (String c (String c' r))) with
      (match rstrip (String c' r) with
       | "" => if is_space c then "" else String c ""
       | r' => String c r'
       end).
    now rewrite IH.
Qed.

Lemma lstrip_first s c : first_char (lstrip s) = Some c -> is_space c = false.
Proof.
  induction s as [|a s IH]; simpl; [discriminate|].
  destruct (is_space a) eqn:Ea; [exact IH|].
  simpl. intros [= <-]. exact Ea.
Qed.

Lemma rstrip_first s c :
  first_char (rstrip s) = Some c -> first_char s = Some c.
Proof.
  destruct s as [|a s]; simpl; [discriminate|].
  destruct (rstrip s); [destruct (is_space a)|]; simpl; congruence.
Qed.

Lemma rstrip_last s c : last_char (rstrip s) = Some c -> is_space c = false.
Proof.
  induction s as [|a s IH]; simpl; [discriminate|].
  destruct (rstrip s) as [|b r] eqn:E.
  - destruct (is_space a) eqn:Ea; simpl; [discriminate|]. now intros [= <-].
  - exact IH.
Qed.

Lemma lstrip_not_space s :
  (forall c, first_char s = Some c -> is_space c = false) -> lstrip s = s.
Proof.
  destruct s as [|a s]; simpl; [reflexivity|].
  intros H. now rewrite (H a eq_refl).
Qed.

Lemma strip_trimmed s : trimmed (strip s).
Proof.
  split; intros c Hc.
  - apply (lstrip_first s). now apply rstrip_first.
  - now apply (rstrip_last (lstrip s)).
Qed.

Lemma strip_idem s : strip (strip s) = strip s.
Proof.
  unfold strip at 1. rewrite lstrip_not_space.
  - apply rstrip_idem.
  - apply strip_trimmed.
Qed.

Lemma lower_char_idem c : lower_char (lower_char c) = lower_char c.
Proof.
  destruct c as [[] [] [] [] [] [] [] []]; reflexivity.
Qed.

Lemma lower_idem s : lower (lower s) = lower s.
Proof.
  induction s as [|c s IH]; simpl; [reflexivity|].
  now rewrite lower_char_idem, IH.
Qed.

End PyStrFacts.
(** ** Properties of [__kluge_date] *)

Section KlugeFacts.

Lemma sapp_cons c s t : String c s +:+ t = String c (s +:+ t).
Proof. reflexivity. Qed.

Lemma sapp_nil_l s : "" +:+ s = s.
Proof. reflexivity. Qed.

Lemma sapp_nil_r s : s +:+ "" = s.
Proof. induction s as [|c s IH]; [reflexivity|]. now rewrite sapp_cons, IH. Qed.

Lemma sapp_assoc (s t u : string) : (s +:+ t) +:+ u = s +:+ (t +:+ u).
Proof. induction s as [|c s IH]; [reflexivity|]. now rewrite !sapp_cons, IH. Qed.

Lemma has_dot_app s t : has_dot (s +:+ t) = has_dot s || has_dot t.
Proof.
  induction s as [|c s IH]; [reflexivity|].
  rewrite sapp_cons. simpl. rewrite IH. now destruct (Ascii.eqb c ".").
Qed.

Lemma all_digits_no_dot s : all_digits s = true -> has_dot s = false.
Proof.
  induction s as [|c s IH]; [reflexivity|]. simpl.
  intros [Hc Hs]%andb_true_iff. rewrite (IH Hs), orb_false_r.
  destruct (Ascii.eqb_spec c "."); [subst; discriminate|reflexivity].
Qed.

Lemma span_digits_spec s d r :
  span_digits s = (d, r) ->
  s = d +:+ r /\ all_digits d = true /\
  (forall c, PyStr.first_char r = Some c -> PyStr.is_digit c = false).
Proof.
  revert d r. induction s as [|c s IH]; simpl; intros d r.
  - intros [= <- <-]. repeat split. discriminate.
  - destruct (PyStr.is_digit c) eqn:Hc.
    + destruct (span_digits s) as [d' r'] eqn:E. intros [= <- <-].
      destruct (IH _ _ eq_refl) as (-> & Hd & Hr).
      repeat split; [simpl; now rewrite Hc, Hd|exact Hr].
    + intros [= <- <-]. repeat split. simpl. now intros ? [= <-].
Qed.

Lemma span_digits_app d r :
  all_digits d = true ->
  (forall c, PyStr.first_char r = Some c -> PyStr.is_digit c = false) ->
  span_digits (d +:+ r) = (d, r).
Proof.
  intros Hd Hr. induction d as [|c d IH].
  - destruct r as [|c r]; [reflexivity|]. simpl.
    now rewrite (Hr c eq_refl).
  - simpl in Hd. apply andb_true_iff in Hd as [Hc Hd].
    rewrite sapp_cons. simpl. now rewrite Hc, (IH Hd).
Qed.

Lemma at_dollar_spec s : at_dollar s = true -> s = "" \/ s = String "010" "".
Proof.
  destruct s as [|c [|c' s]]; simpl; auto; [|destruct c as [[] [] [] [] [] [] [] []]; discriminate].
  destruct c as [[] [] [] [] [] [] [] []]; try discriminate. now right.
Qed.

(** A match consists of a suffix of the pattern's shape and what [$]
    leaves. *)
Lemma kluge_match_sound s rest :
  kluge_match s = Some rest ->
  exists m, kluge_suffix m /\ s = m +:+ rest /\ (rest = "" \/ rest = String "010" "").
Proof.
  unfold kluge_match. destruct s as [|c s1]; [discriminate|].
  destruct (Ascii.eqb_spec c "."%char) as [->|Hc];
    [|destruct c as [[] [] [] [] [] [] [] []]; try discriminate; now contradict Hc].
  destruct (span_digits s1) as [d1 s2] eqn:E1.
  destruct (span_digits_spec _ _ _ E1) as (-> & Hd1 & _).
  destruct d1 as [|a d1]; [discriminate|].
  destruct s2 as [|b s2]; [discriminate|].
  destruct (Ascii.eqb_spec b " "%char) as [->|Hb];
    [|destruct b as [[] [] [] [] [] [] [] []]; try discriminate; now contradict Hb].
  destruct s2 as [|b s3]; [discriminate|].
  destruct (Ascii.eqb_spec b "-"%char) as [->|Hb];
    [|destruct b as [[] [] [] [] [] [] [] []]; try discriminate; now contradict Hb].
  destruct (span_digits s3) as [d2 s4] eqn:E2.
  destruct (span_digits_spec _ _ _ E2) as (-> & Hd2 & _).
  destruct d2 as [|a2 d2]; [discriminate|].
  destruct (at_dollar s4) eqn:E4; [|discriminate].
  intros [= <-]. exists ("." +:+ String a d1 +:+ " -" +:+ String a2 d2).
  split; [|split].
  - exists (String a d1), (String a2 d2). repeat split; auto; discriminate.
  - rewrite !sapp_assoc. reflexivity.
  - now apply at_dollar_spec.
Qed.

Lemma kluge_match_complete m :
  kluge_suffix m -> kluge_match m = Some "".
Proof.
  intros (d1 & d2 & Hn1 & Hn2 & Hd1 & Hd2 & ->).
  unfold kluge_match. rewrite sapp_cons, sapp_nil_l.
  rewrite (span_digits_app d1 (" -" +:+ d2) Hd1); [|now intros ? [= <-]].
  destruct d1 as [|a d1]; [congruence|].
  rewrite !sapp_cons, sapp_nil_l.
  rewrite <- (sapp_nil_r d2) at 1.
  rewrite (span_digits_app d2 "" Hd2); [|discriminate].
  destruct d2 as [|a2 d2]; [congruence|]. reflexivity.
Qed.

(** In a match only the first byte is a dot. *)
Lemma kluge_match_no_dot c s rest :
  kluge_match (String c s) = Some rest -> has_dot s = false.
Proof.
  intros (m & (d1 & d2 & _ & _ & Hd1 & Hd2 & ->) & E & Hrest)%kluge_match_sound.
  rewrite !sapp_cons in E. injection E as _ ->.
  rewrite !sapp_nil_l, !has_dot_app. simpl.
  rewrite (all_digits_no_dot _ Hd1), (all_digits_no_dot _ Hd2).
  destruct Hrest as [-> | ->]; reflexivity.
Qed.

Lemma kluge_date_eq s :
  kluge_date s =
  match kluge_match s with
  | Some rest => rest
  | None => match s with "" => "" | String c s' => String c (kluge_date s') end
  end.
Proof. destruct s; reflexivity. Qed.

Lemma kluge_suffix_dot m : kluge_suffix m -> has_dot m = true.
Proof. intros (d1 & d2 & _ & _ & _ & _ & ->). reflexivity. Qed.

(** A trailing suffix of the pattern's shape is removed. *)
Lemma kluge_date_strips p m :
  kluge_suffix m -> kluge_date (p +:+ m) = p.
Proof.
  intros Hm. induction p as [|c p IH].
  - rewrite sapp_nil_l, kluge_date_eq. now rewrite (kluge_match_complete _ Hm).
  - rewrite sapp_cons.
    assert (kluge_match (String c (p +:+ m)) = None) as E.
    { destruct (kluge_match (String c (p +:+ m))) eqn:E; [|reflexivity].
      apply kluge_match_no_dot in E.
      rewrite has_dot_app, (kluge_suffix_dot _ Hm), orb_true_r in E. discriminate. }
    rewrite kluge_date_eq, E. now rewrite IH.
Qed.

(** Without a match anywhere the string is returned as it is. *)
Lemma kluge_date_id s :
  (forall p t, s = p +:+ t -> kluge_match t = None) -> kluge_date s = s.
Proof.
  induction s as [|c s IH]; intros H.
  - reflexivity.
  - assert (kluge_match (String c s) = None) as E by now apply (H "").
    rewrite kluge_date_eq, E. f_equal. apply IH.
    intros p t ->. apply (H (String c p)). reflexivity.
Qed.

Lemma last_char_app_nl p : PyStr.last_char (p +:+ String "010" "") = Some "010"%char.
Proof.
  induction p as [|c p IH]; [reflexivity|].
  rewrite sapp_cons. simpl. rewrite IH.
  destruct (p +:+ String "010" "") eqn:E; [|reflexivity].
  destruct p; discriminate.
Qed.

(** On a trimmed string: the result is the string without its suffix of the
    pattern's shape, or the string itself when it has none. *)
Lemma kluge_date_trimmed t :
  PyStr.trimmed t ->
  (forall p m, t = p +:+ m -> kluge_suffix m -> kluge_date t = p) /\
  ((forall p m, t = p +:+ m -> ~ kluge_suffix m) -> kluge_date t = t).
Proof.
  intros [_ Hlast]. split.
  - intros p m -> Hm. now apply kluge_date_strips.
  - intros Hno. apply kluge_date_id. intros p s -> .
    destruct (kluge_match s) as [rest|] eqn:E; [exfalso|reflexivity].
    apply kluge_match_sound in E as (m & Hm & -> & [-> | ->]).
    + rewrite sapp_nil_r in Hno. exact (Hno p m eq_refl Hm).
    + specialize (Hlast "010"%char).
      rewrite <- !sapp_assoc in Hlast.
      rewrite last_char_app_nl in Hlast. now specialize (Hlast eq_refl).
Qed.

End KlugeFacts.
(** ** What [strip] computes *)

Module TrimFacts.
Import PyStr.

Lemma lstrip_split s : exists l, s = l +:+ lstrip s /\ blank l = true.
Proof.
  induction s as [|c s (l & E & Hl)]; simpl.
  - now exists "".
  - destruct (is_space c) eqn:Hc.
    + exists (String c l). rewrite sapp_cons, <- E. simpl. now rewrite Hc, Hl.
    + now exists "".
Qed.

Lemma rstrip_split s : exists r, s = rstrip s +:+ r /\ blank r = true.
Proof.
  induction s as [|c s (r & E & Hr)]; simpl.
  - now exists "".
  - destruct (rstrip s) as [|a b] eqn:Hs.
    + rewrite sapp_nil_l in E. subst r.
      destruct (is_space c) eqn:Hc.
      * exists (String c s). split; [reflexivity|]. simpl. now rewrite Hc, Hr.
      * exists s. split; [reflexivity|exact Hr].
    + exists r. split; [|exact Hr]. rewrite E at 1. reflexivity.
Qed.

(** [strip] computes the trim. *)
Lemma strip_trim_of s : trim_of s (strip s).
Proof.
  destruct (lstrip_split s) as (l & El & Hl).
  destruct (rstrip_split (lstrip s)) as (r & Er & Hr).
  exists l, r. split; [|split; [exact Hl|split; [exact Hr|apply PyStrFacts.strip_trimmed]]].
  unfold strip. now rewrite <- Er.
Qed.

Lemma lstrip_blank_app l s : blank l = true -> lstrip (l +:+ s) = lstrip s.
Proof.
  induction l as [|c l IH]; simpl; [reflexivity|].
  intros [Hc Hl]%andb_true_iff. rewrite ?sapp_cons. simpl. now rewrite Hc, IH.
Qed.

Lemma rstrip_blank r : blank r = true -> rstrip r = "".
Proof.
  induction r as [|c r IH]; simpl; [reflexivity|].
  intros [Hc Hr]%andb_true_iff. now rewrite (IH Hr), Hc.
Qed.

Lemma lstrip_blank r : blank r = true -> lstrip r = "".
Proof.
  induction r as [|c r IH]; simpl; [reflexivity|].
  intros [Hc Hr]%andb_true_iff. now rewrite Hc, IH.
Qed.

Lemma rstrip_app_blank t r : blank r = true -> rstrip (t +:+ r) = rstrip t.
Proof.
  intros Hr. induction t as [|c t IH].
  - rewrite sapp_nil_l. now apply rstrip_blank.
  - rewrite ?sapp_cons. simpl. now rewrite IH.
Qed.

Lemma rstrip_last_not_space t :
  (forall c, last_char t = Some c -> is_space c = false) -> rstrip t = t.
Proof.
  induction t as [|c t IH]; [reflexivity|]. intros H. simpl.
  destruct t as [|a b].
  - simpl. now rewrite (H c eq_refl).
  - rewrite IH; [reflexivity|]. intros x Hx. apply H. exact Hx.
Qed.

(** The trim of a string is unique: it is what [strip] computes. *)
Lemma trim_of_unique s t : trim_of s t -> t = strip s.
Proof.
  intros (l & r & -> & Hl & Hr & Hfirst & Hlast).
  unfold strip. rewrite (lstrip_blank_app l _ Hl).
  destruct t as [|c t].
  - rewrite sapp_nil_l, (lstrip_blank r Hr). reflexivity.
  - rewrite sapp_cons. simpl. rewrite (Hfirst c eq_refl).
    rewrite <- sapp_cons, (rstrip_app_blank _ r Hr).
    symmetry. now apply rstrip_last_not_space.
Qed.

Lemma Forall2_trim_of_strip (l : list string) : Forall2 trim_of l (map strip l).
Proof. induction l; simpl; constructor; auto using strip_trim_of. Qed.

Lemma Forall2_trim_of_unique (l ts : list string) :
  Forall2 trim_of l ts -> ts = map strip l.
Proof.
  induction 1 as [|s t l ts H _ IH]; simpl; [reflexivity|].
  now rewrite (trim_of_unique s t H), IH.
Qed.

End TrimFacts.

(** ** Worlds *)

Section WorldFacts.
Context {node float datetime : Type} `{builtins : !Builtins float datetime}.
Implicit Types (w : @world node float datetime).

Lemma world_eq w1 w2 :
  doc w1 = doc w2 -> trace w1 = trace w2 -> lazies w1 = lazies w2 ->
  objects w1 = objects w2 -> gens w1 = gens w2 -> w1 = w2.
Proof. destruct w1, w2; simpl; intros; now subst. Qed.

Lemma add_trace_nil w : add_trace [] w = w.
Proof. apply world_eq; simpl; try reflexivity. apply List.app_nil_r. Qed.

Lemma add_trace_add_trace tr1 tr2 w :
  add_trace tr2 (add_trace tr1 w) = add_trace (tr1 ++ tr2) w.
Proof. apply world_eq; simpl; try reflexivity. symmetry. apply List.app_assoc. Qed.

Lemma push_lazies_push_lazies l1 l2 w :
  push_lazies l2 (push_lazies l1 w) = push_lazies (l1 ++ l2) w.
Proof. apply world_eq; simpl; try reflexivity. symmetry. apply List.app_assoc. Qed.

Lemma store_gen_store_gen g a b w :
  store_gen g a (store_gen g b w) = store_gen g a w.
Proof. apply world_eq; simpl; try reflexivity. apply list_insert_insert_eq. Qed.

Lemma store_gen_id g a w : gens w !! g = Some a -> store_gen g a w = w.
Proof. intros H. apply world_eq; simpl; try reflexivity. now apply list_insert_id. Qed.

Lemma store_cache_None c lz w :
  lazies w !! c = Some lz -> cache lz = VNone -> store_cache c VNone w = w.
Proof.
  intros H E. apply world_eq; simpl; auto.
  apply list_eq. intros i.
  destruct (decide (i = c)) as [->|Hne].
  - rewrite list_lookup_alter_eq, H. simpl. f_equal.
    destruct lz; simpl in *; now subst.
  - now rewrite list_lookup_alter_ne.
Qed.

Lemma new_record_add_trace cls n tr w :
  new_record cls n (add_trace tr w) = add_trace tr (new_record cls n w).
Proof. reflexivity. Qed.

Lemma new_record_store_gen cls n g a w :
  new_record cls n (store_gen g a w) = store_gen g a (new_record cls n w).
Proof. reflexivity. Qed.

Lemma add_trace_store_gen tr g a w :
  add_trace tr (store_gen g a w) = store_gen g a (add_trace tr w).
Proof. reflexivity. Qed.

Lemma build_records_add_trace cls nodes tr w :
  build_records cls nodes (add_trace tr w) = add_trace tr (build_records cls nodes w).
Proof.
  revert w. induction nodes as [|n nodes IH]; intros w; [reflexivity|].
  simpl. now rewrite new_record_add_trace, IH.
Qed.

Lemma build_records_store_gen cls nodes g a w :
  build_records cls nodes (store_gen g a w) = store_gen g a (build_records cls nodes w).
Proof.
  revert w. induction nodes as [|n nodes IH]; intros w; [reflexivity|].
  simpl. now rewrite new_record_store_gen, IH.
Qed.

(** Constructing records touches neither the document, nor the trace, nor
    the generators; the two heaps grow at the end. *)
Lemma build_records_frame cls nodes w :
  doc (build_records cls nodes w) = doc w /\
  trace (build_records cls nodes w) = trace w /\
  gens (build_records cls nodes w) = gens w /\
  (exists ls, lazies (build_records cls nodes w) = lazies w ++ ls /\
              Forall (fun lz => cache lz = VNone) ls) /\
  (exists os, objects (build_records cls nodes w) = objects w ++ os /\
              map r_dom os = nodes /\ Forall (fun o => r_cls o = cls) os).
Proof.
  revert w. induction nodes as [|n nodes IH]; intros w; simpl.
  - repeat split; auto.
    + exists []. split; [now rewrite List.app_nil_r|constructor].
    + exists []. split; [now rewrite List.app_nil_r|]. split; [reflexivity|constructor].
  - destruct (IH (new_record cls n w)) as (Hd & Ht & Hg & (ls & Hl & Hls) & (os & Ho & Hos & Hcl)).
    repeat split; auto.
    + exists (new_cells n (cls_fields cls) ++ ls). split.
      * rewrite Hl. simpl. now rewrite <- List.app_assoc.
      * apply Forall_app. split; [|exact Hls].
        unfold new_cells. apply Forall_fmap, Forall_true. now intros x.
    + exists (new_object cls n (length (lazies w)) :: os). split; [|split].
      * rewrite Ho. simpl. now rewrite <- List.app_assoc.
      * simpl. now rewrite Hos.
      * now constructor.
Qed.

End WorldFacts.
(** ** Record construction and generators *)

Ltac munfold :=
  unfold fmap, M_fmap, mbind, M_bind, bind, mret, M_ret, ret, get_doc,
    xpath_eval, alloc_object, alloc_gen, alloc_Lazy, set_gen, set_cache,
    lift, raise, stuck.

Section GeneratorFacts.
Context {node float datetime : Type} `{builtins : !Builtins float datetime}.
Implicit Types (w : @world node float datetime) (cls : @RecordClass node)
  (d : Document node) (nodes outer : list node).

Lemma bind_fields_eq dom fs w :
  bind_fields dom fs w =
  (Return (new_attrs (length (lazies w)) fs), push_lazies (new_cells dom fs) w).
Proof.
  revert w. induction fs as [|[name field] fs IH]; intros w; simpl.
  - munfold. f_equal. apply world_eq; simpl; try reflexivity.
    now rewrite List.app_nil_r.
  - munfold. unfold Lazy_init. munfold. rewrite IH.
    rewrite push_lazies_push_lazies. simpl.
    rewrite length_app. simpl. now rewrite Nat.add_1_r.
Qed.

(** [XPathRecord.__init__] returns, with a new object at the end of the
    heap. *)
Lemma XPathRecord_init_eq cls dom w :
  XPathRecord_init cls dom w = (Return (length (objects w)), new_record cls dom w).
Proof.
  unfold XPathRecord_init. munfold. now rewrite bind_fields_eq.
Qed.

Lemma accepted_next cls d nodes :
  accepted cls d nodes =
  match next_accepted cls d nodes with
  | None => []
  | Some (n, rest) => n :: accepted cls d rest
  end.
Proof.
  induction nodes as [|n nodes IH]; simpl; [reflexivity|].
  destruct (record_filter cls d n); [reflexivity|exact IH].
Qed.

Lemma records_loop_eq cls nodes w :
  records_loop cls nodes w =
  match next_accepted cls (doc w) nodes with
  | None => (Return (None, R_done), w)
  | Some (n, rest) =>
      (Return (Some (length (objects w)), R_running cls rest), new_record cls n w)
  end.
Proof.
  induction nodes as [|n nodes IH]; simpl; [reflexivity|].
  munfold. destruct (record_filter cls (doc w) n).
  - now rewrite XPathRecord_init_eq.
  - exact IH.
Qed.

Lemma survivors_hit cls d outer :
  match first_hit cls d outer with
  | None => survivors cls d outer = []
  | Some (tried, m, inner, rest) =>
      survivors cls d outer = m :: accepted cls d inner ++ survivors cls d rest /\
      outer = tried ++ rest
  end.
Proof.
  induction outer as [|n outer IH]; simpl; [reflexivity|].
  rewrite (accepted_next cls d (xpathEval d n ".")).
  destruct (next_accepted cls d (xpathEval d n ".")) as [[m inner]|].
  - split; reflexivity.
  - destruct (first_hit cls d outer) as [[[[tried m] inner] rest]|].
    + destruct IH as [-> ->]. split; reflexivity.
    + exact IH.
Qed.

Lemma children_loop_eq cls outer w :
  children_loop cls outer w =
  match first_hit cls (doc w) outer with
  | None => (Return (None, C_done), add_trace (dot_calls outer) w)
  | Some (tried, m, inner, rest) =>
      (Return (Some (length (objects w)), C_running cls rest (R_running cls inner)),
       new_record cls m (add_trace (dot_calls tried) w))
  end.
Proof.
  revert w. induction outer as [|n outer IH]; intros w; simpl.
  - munfold. now rewrite add_trace_nil.
  - munfold. rewrite records_loop_eq. simpl.
    destruct (next_accepted cls (doc w) (xpathEval (doc w) n ".")) as [[m inner]|].
    + reflexivity.
    + rewrite IH. simpl.
      destruct (first_hit cls (doc w) outer) as [[[[tried m] inner] rest]|];
        now rewrite add_trace_add_trace.
Qed.

Lemma first_child_loop_eq cls outer w :
  first_child_loop cls outer w =
  match first_hit cls (doc w) outer with
  | None => (Return VNone, add_trace (dot_calls outer) w)
  | Some (tried, m, _, _) =>
      (Return (VRecord (length (objects w))),
       new_record cls m (add_trace (dot_calls tried) w))
  end.
Proof.
  revert w. induction outer as [|n outer IH]; intros w; simpl.
  - munfold. now rewrite add_trace_nil.
  - munfold. rewrite records_loop_eq. simpl.
    destruct (next_accepted cls (doc w) (xpathEval (doc w) n ".")) as [[m inner]|].
    + reflexivity.
    + rewrite IH. simpl.
      destruct (first_hit cls (doc w) outer) as [[[[tried m] inner] rest]|];
        now rewrite add_trace_add_trace.
Qed.

(** One resumption of a [records] frame. *)
Lemma records_next_spec cls st w :
  r_makes cls st ->
  match r_pending (doc w) st with
  | [] => records_next st w = (Return (None, R_done), add_trace (r_calls st) w)
  | n :: p =>
      exists st', r_makes cls st' /\ r_pending (doc w) st' = p /\ r_calls st' = [] /\
        records_next st w =
        (Return (Some (length (objects w)), st'),
         new_record cls n (add_trace (r_calls st) w))
  end.
Proof.
  destruct st as [c dom xpath|c rest|]; simpl.
  - intros ->. munfold. rewrite records_loop_eq. simpl.
    rewrite accepted_next.
    destruct (next_accepted cls (doc w) (xpathEval (doc w) dom xpath)) as [[n rest]|];
      [|reflexivity].
    exists (R_running cls rest). now repeat split.
  - intros ->. rewrite records_loop_eq, add_trace_nil. rewrite accepted_next.
    destruct (next_accepted cls (doc w) rest) as [[n rest']|]; [|reflexivity].
    exists (R_running cls rest'). now repeat split.
  - intros _. munfold. now rewrite add_trace_nil.
Qed.

(** One resumption of a generator object: it stops after the evaluations it
    still had to make, or yields a new record over the first pending node. *)
Lemma next_spec cls g gen w :
  gens w !! g = Some gen -> makes cls gen ->
  match pending (doc w) gen with
  | [] =>
      next g w =
      (Return None, store_gen g (done gen) (add_trace (calls (doc w) gen) w))
  | n :: p =>
      exists gen' tr,
        makes cls gen' /\ pending (doc w) gen' = p /\ done gen' = done gen /\
        calls (doc w) gen = tr ++ calls (doc w) gen' /\
        next g w =
        (Return (Some (VRecord (length (objects w)))),
         store_gen g gen' (new_record cls n (add_trace tr w)))
  end.
Proof.
  intros Hg Hm. unfold next. rewrite Hg.
  destruct gen as [st|[c dom xpath|c rest inner|]]; simpl in *.
  - pose proof (records_next_spec cls st w Hm) as H.
    destruct (r_pending (doc w) st) as [|n p].
    + munfold. now rewrite H.
    + destruct H as (st' & Hm' & Hp & Hc & E).
      exists (GRecords st'), (r_calls st). simpl.
      rewrite Hc, List.app_nil_r. repeat split; auto.
      munfold. now rewrite E.
  - subst c. munfold. rewrite children_loop_eq. simpl.
    pose proof (survivors_hit cls (doc w) (xpathEval (doc w) dom xpath)) as H.
    destruct (first_hit cls (doc w) (xpathEval (doc w) dom xpath))
      as [[[[tried m] inner] rest]|].
    + destruct H as [-> Ho].
      exists (GChildren (C_running cls rest (R_running cls inner))),
        ((dom, xpath) :: dot_calls tried). simpl.
      repeat split; auto.
      * rewrite Ho. unfold dot_calls. now rewrite map_app.
      * now rewrite add_trace_add_trace.
    + rewrite H. now rewrite add_trace_add_trace.
  - destruct Hm as [-> Hm].
    pose proof (records_next_spec cls inner w Hm) as H.
    destruct (r_pending (doc w) inner) as [|n p]; simpl.
    + munfold. rewrite H. rewrite children_loop_eq. simpl.
      pose proof (survivors_hit cls (doc w) rest) as H'.
      destruct (first_hit cls (doc w) rest) as [[[[tried m] inner'] rest']|].
      * destruct H' as [-> Ho].
        exists (GChildren (C_running cls rest' (R_running cls inner'))),
          (r_calls inner ++ dot_calls tried). simpl.
        repeat split; auto.
        -- rewrite Ho. unfold dot_calls. now rewrite map_app, List.app_assoc.
        -- now rewrite add_trace_add_trace.
      * rewrite H'. now rewrite add_trace_add_trace.
    + destruct H as (st' & Hm' & Hp & Hc & E).
      exists (GChildren (C_running cls rest st')), (r_calls inner). simpl.
      rewrite Hc, Hp. repeat split; auto.
      munfold. now rewrite E.
  - munfold. now rewrite add_trace_nil.
Qed.

Lemma fresh_records_S base k :
  @fresh_records float datetime base (S k) = VRecord base :: fresh_records (S base) k.
Proof. reflexivity. Qed.

(** [list(g)]: with fuel for every pending record and the final
    [StopIteration], the generator yields a new record over each pending
    node, makes the evaluations it still had to make, and is left stopped. *)
Lemma list_of_spec cls p : forall g gen w fuel,
  gens w !! g = Some gen -> makes cls gen -> pending (doc w) gen = p ->
  length p < fuel ->
  list_of fuel g w =
  (Return (fresh_records (length (objects w)) (length p)),
   store_gen g (done gen)
     (build_records cls p (add_trace (calls (doc w) gen) w))).
Proof.
  induction p as [|n p IH]; intros g gen w fuel Hg Hm Hp Hfuel;
    (destruct fuel as [|fuel]; [simpl in Hfuel; lia|]);
    pose proof (next_spec cls g gen w Hg Hm) as H; rewrite Hp in H;
    simpl; munfold.
  - now rewrite H.
  - destruct H as (gen' & tr & Hm' & Hp' & Hd & Hc & E). rewrite E.
    set (w1 := store_gen g gen' (new_record cls n (add_trace tr w))).
    assert (gens w1 !! g = Some gen') as Hg1.
    { simpl. apply list_lookup_insert_eq. now apply lookup_lt_Some in Hg. }
    rewrite (IH g gen' w1 fuel Hg1 Hm' Hp' ltac:(simpl in Hfuel; lia)).
    f_equal.
    + f_equal. rewrite fresh_records_S. f_equal. f_equal.
      subst w1. simpl. rewrite length_app. simpl. lia.
    + rewrite Hd, Hc. subst w1. simpl doc.
      rewrite add_trace_store_gen, build_records_store_gen, store_gen_store_gen.
      now rewrite <- new_record_add_trace, add_trace_add_trace.
Qed.

(** A stopped generator stays stopped: resuming it yields nothing and
    changes nothing. *)
Lemma list_of_done g gen w fuel :
  gens w !! g = Some (done gen) ->
  list_of (S fuel) g w = (Return [], w).
Proof.
  intros Hg.
  assert (makes (Build_RecordClass [] default_record_filter) (done gen)) as Hm
    by now destruct gen.
  rewrite (list_of_spec _ [] g (done gen) w (S fuel) Hg Hm);
    [|now destruct gen|simpl; lia].
  f_equal. simpl.
  assert (calls (doc w) (done gen) = []) as -> by now destruct gen.
  rewrite add_trace_nil. apply store_gen_id.
  now destruct gen.
Qed.

End GeneratorFacts.
(** ** Field values *)

Ltac case_head :=
  match goal with
  | |- context [py_float ?s] => destruct (py_float s)
  | |- context [py_int ?s] => destruct (py_int s)
  | |- context [try_formats ?s ?l] => destruct (try_formats s l)
  | |- context [bool_decide ?P] => destruct (bool_decide P)
  | |- context [first_hit ?c ?d ?l] => destruct (first_hit c d l) as [[[[? ?] ?] ?]|]
  end; simpl.

Section ValueFacts.
Context {node float datetime : Type} `{builtins : !Builtins float datetime}.
Implicit Types (w : @world node float datetime) (cls : @RecordClass node)
  (d : Document node) (nodes outer : list node) (field : @Field node).

Lemma TextField_value_eq xpath dom w :
  TextField_value xpath dom w =
  (Return (text_of (doc w) dom xpath), add_trace [(dom, xpath)] w).
Proof. reflexivity. Qed.

Lemma join_app l1 l2 : PyStr.join (l1 ++ l2) = PyStr.join l1 +:+ PyStr.join l2.
Proof.
  induction l1 as [|s l1 IH]; simpl; [reflexivity|].
  now rewrite IH, sapp_assoc.
Qed.

Lemma try_formats_first s (fmts : list string) i fmt (t : datetime) :
  fmts !! i = Some fmt -> strptime s fmt = Some t ->
  (forall j fmt', j < i -> fmts !! j = Some fmt' -> strptime s fmt' = None) ->
  try_formats s fmts = Some t.
Proof.
  revert i. induction fmts as [|f fmts IH]; intros i Hi Hs Hbefore.
  - discriminate.
  - destruct i as [|i]; simpl in *.
    + injection Hi as ->. now rewrite Hs.
    + rewrite (Hbefore 0 f); [|lia|reflexivity].
      apply (IH i Hi Hs). intros j fmt' Hj Hl.
      apply (Hbefore (S j) fmt'); [lia|exact Hl].
Qed.

Lemma try_formats_none s (fmts : list string) :
  (forall fmt, fmt ∈ fmts -> strptime s fmt = None) ->
  try_formats s fmts = (None : option datetime).
Proof.
  induction fmts as [|f fmts IH]; intros Hall; simpl; [reflexivity|].
  rewrite (Hall f); [|now left]. apply IH.
  intros fmt Hin. apply Hall. now right.
Qed.

(** A success of the loop is the success of the first format that parses. *)
Lemma try_formats_some s (fmts : list string) (t : datetime) :
  try_formats s fmts = Some t ->
  exists i fmt,
    fmts !! i = Some fmt /\ strptime s fmt = Some t /\
    forall j fmt', j < i -> fmts !! j = Some fmt' -> strptime s fmt' = None.
Proof.
  induction fmts as [|f fmts IH]; simpl; [discriminate|].
  destruct (strptime s f) as [t'|] eqn:E.
  - intros [= ->]. exists 0, f. repeat split; auto. intros j ? Hj. lia.
  - intros (i & fmt & Hi & Hs & Hb)%IH. exists (S i), fmt.
    repeat split; auto. intros [|j] fmt' Hj Hl; simpl in Hl.
    + now injection Hl as <-.
    + apply (Hb j); [lia|exact Hl].
Qed.

(** A scalar field evaluates its XPath once and touches nothing else. *)
Lemma value_scalar field dom w :
  is_scalar field = true ->
  (value field dom w).2 = add_trace [(dom, xpath_of field)] w.
Proof.
  destruct field; try discriminate; intros _; simpl;
    unfold FloatField_value, IntField_value, BooleanField_value,
      DatetimeField_value, NodeExistsField_value; munfold;
    rewrite ?TextField_value_eq; simpl; try reflexivity;
    repeat case_head; reflexivity.
Qed.

(** The outcome of a scalar field depends on the document only. *)
Lemma value_scalar_doc field dom w w' :
  is_scalar field = true -> doc w = doc w' ->
  (value field dom w).1 = (value field dom w').1.
Proof.
  destruct field; try discriminate; intros _ Hd; simpl;
    unfold FloatField_value, IntField_value, BooleanField_value,
      DatetimeField_value, NodeExistsField_value; munfold;
    rewrite ?TextField_value_eq; simpl; rewrite Hd; try reflexivity;
    repeat case_head; reflexivity.
Qed.

Lemma FirstChildField_value_eq xpath cls dom w :
  FirstChildField_value xpath cls dom w =
  match first_hit cls (doc w) (xpathEval (doc w) dom xpath) with
  | None =>
      (Return VNone,
       add_trace ((dom, xpath) :: dot_calls (xpathEval (doc w) dom xpath)) w)
  | Some (tried, m, _, _) =>
      (Return (VRecord (length (objects w))),
       new_record cls m (add_trace ((dom, xpath) :: dot_calls tried) w))
  end.
Proof.
  unfold FirstChildField_value. munfold. rewrite first_child_loop_eq. simpl.
  destruct (first_hit _ _ _) as [[[[tried m] inner] rest]|];
    now rewrite add_trace_add_trace.
Qed.

(** Only the four coercing fields can raise, and what they raise is a
    [ValueError]; no field gets stuck. *)
Lemma value_outcome field dom w :
  match (value field dom w).1 with
  | Return _ => True
  | Raise e =>
      (exists msg, e = ValueError msg) /\
      match field with
      | FloatField _ | IntField _ | BooleanField _ _ _ | DatetimeField _ _ => True
      | _ => False
      end
  | Stuck _ => False
  end.
Proof.
  destruct field; simpl;
    unfold FloatField_value, IntField_value, BooleanField_value,
      DatetimeField_value, NodeExistsField_value, ChildrenField_value; munfold;
    rewrite ?TextField_value_eq, ?FirstChildField_value_eq; simpl; auto;
    repeat case_head; simpl; eauto.
Qed.

(** Computing a value leaves the document alone, and every object that
    exists where it is: the trace and the heaps only grow at the end. *)
Lemma value_frame field dom w :
  let w' := (value field dom w).2 in
  doc w' = doc w /\
  (exists tr, trace w' = trace w ++ tr) /\
  (exists ls, lazies w' = lazies w ++ ls) /\
  (exists os, objects w' = objects w ++ os) /\
  (exists gs, gens w' = gens w ++ gs).
Proof.
  destruct (is_scalar field) eqn:Hs.
  - simpl. rewrite (value_scalar _ _ _ Hs). simpl. repeat split; eauto.
    + exists []. now rewrite List.app_nil_r.
    + exists []. now rewrite List.app_nil_r.
    + exists []. now rewrite List.app_nil_r.
  - destruct field; try discriminate; simpl.
    + unfold ChildrenField_value. munfold. simpl. repeat split; eauto.
      * exists []. now rewrite List.app_nil_r.
      * exists []. now rewrite List.app_nil_r.
      * exists []. now rewrite List.app_nil_r.
    + rewrite FirstChildField_value_eq.
      destruct (first_hit _ _ _) as [[[[tried m] inner] rest]|]; simpl;
        repeat split; eauto.
      * exists []. now rewrite List.app_nil_r.
      * exists []. now rewrite List.app_nil_r.
      * exists []. now rewrite List.app_nil_r.
      * exists []. now rewrite List.app_nil_r.
Qed.

(** ** The lazy cell *)

Lemma Lazy_call_hit c lz w :
  lazies w !! c = Some lz -> cache lz <> VNone ->
  Lazy_call c w = (Return (cache lz), w).
Proof.
  intros Hc Hn. unfold Lazy_call. rewrite Hc.
  destruct (cache lz); try reflexivity. now contradict Hn.
Qed.

Lemma Lazy_call_miss c lz w :
  lazies w !! c = Some lz -> cache lz = VNone ->
  Lazy_call c w =
  match value (lz_field lz) (lz_dom lz) w with
  | (Return v, w') => (Return v, store_cache c v w')
  | (Raise e, w') => (Raise e, w')
  | (Stuck f, w') => (Stuck f, w')
  end.
Proof.
  intros Hc Hn. unfold Lazy_call. rewrite Hc, Hn. simpl. munfold.
  now destruct (value _ _ w) as [[v|e|f] w'].
Qed.

(** A cell that exists before a value is computed is the same cell after. *)
Lemma value_keeps_cell field dom c lz w :
  lazies w !! c = Some lz -> lazies (value field dom w).2 !! c = Some lz.
Proof.
  intros Hc. destruct (value_frame field dom w) as (_ & _ & (ls & ->) & _).
  now apply lookup_app_l_Some.
Qed.

Lemma store_cache_lookup c v lz w :
  lazies w !! c = Some lz ->
  lazies (store_cache c v w) !! c = Some (with_cache v lz).
Proof. intros Hc. simpl. now rewrite list_lookup_alter_eq, Hc. Qed.

Lemma attempts_S {A} n (c : @M node float datetime A) w :
  attempts (S n) c w =
  let '(o, w') := c w in
  match attempts n c w' with
  | (Return os, w'') => (Return (o :: os), w'')
  | (Raise e, w'') => (Raise e, w'')
  | (Stuck f, w'') => (Stuck f, w'')
  end.
Proof.
  simpl. munfold. unfold attempt. destruct (c w) as [o w'].
  now destruct (attempts n c w') as [[os|e|f] w''].
Qed.

(** Any number of accesses of a cell that holds a value return that value
    and change nothing. *)
Lemma attempts_hit c lz w n :
  lazies w !! c = Some lz -> cache lz <> VNone ->
  attempts n (Lazy_call c) w = (Return (repeat (Return (cache lz)) n), w).
Proof.
  intros Hc Hn. induction n as [|n IH]; [reflexivity|].
  rewrite attempts_S, (Lazy_call_hit c lz w Hc Hn). now rewrite IH.
Qed.

(** The accessor [record.name()] is the call of the cell that the instance
    attribute [name] refers to. *)
Lemma call_field_cell r o name i c w :
  objects w !! r = Some o ->
  list_find (fun a => a.1 = name) (r_attrs o) = Some (i, (name, c)) ->
  call_field r name w = Lazy_call c w.
Proof. intros Hr Ha. unfold call_field. now rewrite Hr, Ha. Qed.

End ValueFacts.
(** ** The claims *)

Section Claims.
Context {node float datetime : Type} `{builtins : !Builtins float datetime}.
Implicit Types (w : @world node float datetime) (cls : @RecordClass node)
  (d : Document node) (nodes outer : list node) (field : @Field node)
  (lz : @Lazy node float datetime).

(** C3.  A Text field evaluates its XPath once and returns, for every
    document and node, a string: it never fails.  With the [k] result nodes
    in result order, the string is the trim of the concatenation of the
    trims of their contents, and no other string is; with [k = 0] it is the
    empty string.  ([PyStr.trim_of] says what a trim is: the string between
    the whitespace at the two ends.) *)
Theorem C3_text_value xpath (dom : node) w :
  let results := xpathEval (doc w) dom xpath in
  let contents := map (content (doc w)) results in
  exists parts s,
    value (TextField xpath) dom w = (Return (VStr s), add_trace [(dom, xpath)] w) /\
    Forall2 PyStr.trim_of contents parts /\
    PyStr.trim_of (fold_right String.append "" parts) s /\
    (forall parts' s',
       Forall2 PyStr.trim_of contents parts' ->
       PyStr.trim_of (fold_right String.append "" parts') s' -> s' = s) /\
    (length results = 0 -> s = "").
Proof.
  intros results contents.
  exists (map PyStr.strip contents),
    (PyStr.strip (fold_right String.append "" (map PyStr.strip contents))).
  split; [|split; [|split; [|split]]].
  - simpl. munfold. rewrite TextField_value_eq. simpl. unfold text_of, PyStr.join.
    subst contents results. now rewrite map_map.
  - apply TrimFacts.Forall2_trim_of_strip.
  - apply TrimFacts.strip_trim_of.
  - intros parts' s' Hparts Hs.
    rewrite (TrimFacts.Forall2_trim_of_unique _ _ Hparts) in Hs.
    now apply TrimFacts.trim_of_unique.
  - intros Hk. subst contents. now destruct results.
Qed.

(** C4.  A Datetime field takes the Text result [t], which is trimmed, and
    cleans it: a trailing [.digits -digits] is removed, a text without one is
    kept.  It then tries the declared formats (one pattern counts as a list of
    one, the default is the empty list) and after them the five default
    formats in their order; the value is the datetime of the first format
    that parses, and a [ValueError] is raised when none does. *)
Theorem C4_datetime_value xpath format (dom : node) w :
  let declared :=
    match format with FormatStr fmt => [fmt] | FormatList fmts => fmts end in
  let fmts :=
    declared ++
    ["%Y-%m-%d %H:%M:%S"; "%Y-%m-%d %H:%M"; "%Y-%m-%d"; "%Y%m%d"; "%m/%d/%Y"] in
  let t := text_of (doc w) dom xpath in
  let s := kluge_date t in
  let w' := add_trace [(dom, xpath)] w in
  let result := value (DatetimeField_init xpath format) dom w in
  TextField_value xpath dom w = (Return t, w') /\
  PyStr.trimmed t /\
  (forall p m, t = p +:+ m -> kluge_suffix m -> s = p) /\
  ((forall p m, t = p +:+ m -> ~ kluge_suffix m) -> s = t) /\
  (forall i fmt x,
     fmts !! i = Some fmt -> strptime s fmt = Some x ->
     (forall j fmt', j < i -> fmts !! j = Some fmt' -> strptime s fmt' = None) ->
     result = (Return (VDatetime x), w')) /\
  ((forall fmt, fmt ∈ fmts -> strptime s fmt = None) ->
   result = (Raise (ValueError ("Can not parse date: " +:+ s)), w')) /\
  (forall x, result.1 = Return x ->
     exists i fmt y, x = VDatetime y /\ fmts !! i = Some fmt /\ strptime s fmt = Some y) /\
  default_format = FormatList [].
Proof.
  intros declared fmts t s w' result.
  assert (PyStr.trimmed t) as Ht by apply PyStrFacts.strip_trimmed.
  assert (result =
          match try_formats s fmts with
          | Some x => (Return (VDatetime x), w')
          | None => (Raise (ValueError ("Can not parse date: " +:+ s)), w')
          end) as Hr.
  { subst result. unfold DatetimeField_init. simpl.
    unfold DatetimeField_value. munfold. rewrite TextField_value_eq. simpl.
    fold t. fold s. fold declared. unfold DEFAULT_FORMATS. fold fmts.
    now destruct (try_formats s fmts). }
  split; [reflexivity|]. split; [exact Ht|].
  destruct (kluge_date_trimmed t Ht) as [Hstrip Hkeep].
  split; [exact Hstrip|]. split; [exact Hkeep|].
  split; [|split; [|split]].
  - intros i fmt x Hi Hx Hb. rewrite Hr.
    now rewrite (try_formats_first s fmts i fmt x Hi Hx Hb).
  - intros Hall. rewrite Hr. now rewrite (try_formats_none s fmts Hall).
  - intros x. rewrite Hr. destruct (try_formats s fmts) as [y|] eqn:E; [|discriminate].
    simpl. intros [= <-].
    destruct (try_formats_some _ _ _ E) as (i & fmt & Hi & Hy & _).
    now exists i, fmt, y.
  - reflexivity.
Qed.

(** C5, amended.  A Boolean field takes the Text result, trims and
    lower-cases it, and looks the result [s] up: first in the true tokens,
    then in the false tokens.  It returns true exactly when [s] is a true
    token, false exactly when [s] is a false token and not a true token, and
    raises a [ValueError] exactly when [s] is neither.  The defaults are the
    lists of the claim; tokens given at declaration are stored lower-cased,
    so a given token matches whenever it equals the text up to case. *)
Theorem C5_boolean_value xpath true_values false_values (dom : node) w :
  let T :=
    match true_values with
    | None => ["y"; "yes"; "true"; "t"; "ok"]
    | Some l => map PyStr.lower l
    end in
  let F :=
    match false_values with
    | None => ["n"; "no"; "false"; "f"; "nil"]
    | Some l => map PyStr.lower l
    end in
  let t := text_of (doc w) dom xpath in
  let s := PyStr.lower (PyStr.strip t) in
  let result := value (BooleanField_init xpath true_values false_values) dom w in
  result.2 = add_trace [(dom, xpath)] w /\
  s = PyStr.lower t /\
  (result.1 = Return (VBool true) <-> s ∈ T) /\
  (result.1 = Return (VBool false) <-> (s ∈ F) /\ (s ∉ T)) /\
  ((exists msg, result.1 = Raise (ValueError msg)) <-> (s ∉ T) /\ (s ∉ F)) /\
  (forall l, true_values = Some l ->
     (s ∈ T <-> exists tok, tok ∈ l /\ PyStr.lower tok = PyStr.lower t)) /\
  (forall l, false_values = Some l ->
     (s ∈ F <-> exists tok, tok ∈ l /\ PyStr.lower tok = PyStr.lower t)).
Proof.
  intros T F t s result.
  assert (s = PyStr.lower t) as Hs.
  { subst s t. unfold text_of. now rewrite PyStrFacts.strip_idem. }
  assert (result =
          (if bool_decide (s ∈ T) then Return (VBool true)
           else if bool_decide (s ∈ F) then Return (VBool false)
           else Raise (ValueError ("The value (" +:+ s +:+ ") is neither true nor false")),
           add_trace [(dom, xpath)] w)) as Hr.
  { subst result. unfold BooleanField_init. simpl.
    unfold BooleanField_value. munfold. rewrite TextField_value_eq. simpl.
    fold t. fold s.
    change DEFAULT_TRUE_VALUES with ["y"; "yes"; "true"; "t"; "ok"].
    change DEFAULT_FALSE_VALUES with ["n"; "no"; "false"; "f"; "nil"].
    fold T. fold F. now repeat case_bool_decide. }
  rewrite Hr. simpl. split; [reflexivity|]. split; [exact Hs|].
  split; [|split; [|split; [|split]]].
  - repeat case_bool_decide; split; (discriminate || tauto || auto).
  - repeat case_bool_decide; split; try discriminate; try tauto; auto.
  - repeat case_bool_decide; split; try tauto.
    + intros [? [=]].
    + intros [? [=]].
    + eauto.
  - intros l ->. subst T. rewrite Hs. rewrite list_elem_of_fmap. split.
    + intros (tok & E & Hin). eauto.
    + intros (tok & Hin & E). eauto.
  - intros l ->. subst F. rewrite Hs. rewrite list_elem_of_fmap. split.
    + intros (tok & E & Hin). eauto.
    + intros (tok & Hin & E). eauto.
Qed.

(** C7.  A FirstChild field returns normally in every world.  With no
    surviving sub-record below the outer matches the value is [None] and no
    record is constructed; otherwise it is a reference to one new record,
    constructed over the first survivor in document order. *)
Theorem C7_first_child_value xpath cls (dom : node) w :
  let outer := xpathEval (doc w) dom xpath in
  let result := value (FirstChildField xpath cls) dom w in
  match survivors cls (doc w) outer with
  | [] =>
      result.1 = Return VNone /\ objects result.2 = objects w
  | n :: _ =>
      result.1 = Return (VRecord (length (objects w))) /\
      objects result.2 = objects w ++ [new_object cls n (length (lazies w))] /\
      r_dom (new_object cls n (length (lazies w))) = n /\
      r_cls (new_object cls n (length (lazies w))) = cls
  end.
Proof.
  intros outer result. subst result. simpl.
  rewrite FirstChildField_value_eq. fold outer.
  pose proof (survivors_hit cls (doc w) outer) as H.
  destruct (first_hit cls (doc w) outer) as [[[[tried m] inner] rest]|].
  - destruct H as [-> _]. simpl. auto.
  - rewrite H. simpl. auto.
Qed.

Lemma new_attrs_lookup base (fs : list (string * @Field node)) i name field :
  fs !! i = Some (name, field) -> new_attrs base fs !! i = Some (name, base + i).
Proof.
  revert base i. induction fs as [|a fs IH]; intros base i; [discriminate|].
  destruct i as [|i]; simpl.
  - intros [= ->]. simpl. now rewrite Nat.add_0_r.
  - intros Hi. rewrite (IH (S base) i Hi). f_equal. f_equal. lia.
Qed.

Lemma new_cells_lookup (dom : node) (fs : list (string * @Field node)) i name field :
  fs !! i = Some (name, field) ->
  @new_cells node float datetime dom fs !! i =
  Some {| cache := VNone; lz_dom := dom; lz_field := field |}.
Proof.
  intros Hi. unfold new_cells. now rewrite list_lookup_fmap, Hi.
Qed.

(** Resuming a generator never raises. *)
Lemma next_no_raise g w e : (next g w).1 <> Raise e.
Proof.
  unfold next. destruct (gens w !! g) as [[st|st]|]; [| |discriminate].
  - munfold. destruct st as [c dom xpath|c rest|]; simpl; munfold;
      rewrite ?records_loop_eq; simpl;
      repeat match goal with
             | |- context [next_accepted ?c ?d ?l] =>
                 destruct (next_accepted c d l) as [[? ?]|]
             end; discriminate.
  - munfold. destruct st as [c dom xpath|c rest inner|]; simpl; munfold.
    + rewrite children_loop_eq. simpl.
      destruct (first_hit _ _ _) as [[[[? ?] ?] ?]|]; discriminate.
    + destruct inner as [c' dom xpath|c' rest'|]; simpl; munfold;
        rewrite ?records_loop_eq; simpl;
        repeat match goal with
               | |- context [next_accepted ?c ?d ?l] =>
                   destruct (next_accepted c d l) as [[? ?]|]
               end; try discriminate;
        rewrite children_loop_eq; simpl;
        destruct (first_hit _ _ _) as [[[[? ?] ?] ?]|]; discriminate.
    + discriminate.
Qed.

(** C9.  Constructing a record always returns: it evaluates no XPath (the
    trace is unchanged), reads nothing of the document, and only creates,
    for each declared field, a [Lazy] whose cache is empty.  Resuming a
    generator of the factory or of a Children field never raises either.  An
    exception comes out of an access only, it is then a [ValueError] of a
    Float, Integer, Boolean or Datetime field, and it is the accessed cell's
    own: whatever the other fields of the record hold, an access of a Text,
    NodeExists, Children or FirstChild field does not raise. *)
Theorem C9_errors_only_at_access cls (dom : node) w :
  let r := length (objects w) in
  let w' := new_record cls dom w in
  XPathRecord_init cls dom w = (Return r, w') /\
  trace w' = trace w /\
  (forall d, XPathRecord_init cls dom (set_doc d w) = (Return r, set_doc d w')) /\
  objects w' !! r = Some (new_object cls dom (length (lazies w))) /\
  (forall i name field,
     cls_fields cls !! i = Some (name, field) ->
     r_attrs (new_object cls dom (length (lazies w))) !! i
       = Some (name, length (lazies w) + i) /\
     lazies w' !! (length (lazies w) + i)
       = Some {| cache := VNone; lz_dom := dom; lz_field := field |}) /\
  (forall g w0 e, (next g w0).1 <> Raise e) /\
  (forall c w0 e,
     (Lazy_call c w0).1 = Raise e ->
     exists lz msg,
       lazies w0 !! c = Some lz /\ e = ValueError msg /\
       match lz_field lz with
       | FloatField _ | IntField _ | BooleanField _ _ _ | DatetimeField _ _ => True
       | _ => False
       end).
Proof.
  intros r w'. split; [apply XPathRecord_init_eq|]. split; [reflexivity|].
  split; [intros d; now rewrite XPathRecord_init_eq|].
  split; [|split; [|split]].
  - subst w' r. simpl. now rewrite lookup_app_r, Nat.sub_diag by lia.
  - intros i name field Hi. split.
    + now apply (new_attrs_lookup _ _ i name field).
    + subst w'. simpl. rewrite lookup_app_r by lia.
      replace (length (lazies w) + i - length (lazies w)) with i by lia.
      now apply (new_cells_lookup dom _ i name field).
  - intros g w0 e. apply next_no_raise.
  - intros c w0 e. unfold Lazy_call.
    destruct (lazies w0 !! c) as [lz|] eqn:Hc; [|discriminate].
    destruct (is_None (cache lz)); [|discriminate].
    munfold. pose proof (value_outcome (lz_field lz) (lz_dom lz) w0) as Hv.
    destruct (value (lz_field lz) (lz_dom lz) w0) as [[v|e'|f] w1]; simpl in *;
      try discriminate.
    intros [= ->]. destruct Hv as [[msg ->] Hf]. now exists lz, msg.
Qed.

(** C2, amended.  On the first access of a field (a non-Children field in
    particular) whose value computation returns a value other than [None],
    that value is stored in the cell and returned.  Every later access, in whatever world the cell is found,
    returns the identical value and changes nothing: no XPath is evaluated
    again.  For a Text, Integer, Float, Boolean, Datetime or NodeExists
    field all the accesses together make exactly one evaluation, that of the
    field's XPath on the record's node. *)
Theorem C2_value_cached_once c lz w v w1 :
  lazies w !! c = Some lz -> cache lz = VNone ->
  value (lz_field lz) (lz_dom lz) w = (Return v, w1) -> v <> VNone ->
  let w2 := store_cache c v w1 in
  Lazy_call c w = (Return v, w2) /\
  lazies w2 !! c = Some (with_cache v lz) /\
  (forall n, attempts n (Lazy_call c) w2 = (Return (repeat (Return v) n), w2)) /\
  (forall w3, lazies w3 !! c = Some (with_cache v lz) ->
     Lazy_call c w3 = (Return v, w3)) /\
  (is_scalar (lz_field lz) = true ->
   trace w2 = trace w ++ [(lz_dom lz, xpath_of (lz_field lz))]).
Proof.
  intros Hc Hn Hv Hne w2.
  assert (lazies w2 !! c = Some (with_cache v lz)) as Hc2.
  { apply store_cache_lookup.
    pose proof (value_keeps_cell (lz_field lz) (lz_dom lz) c lz w Hc) as H.
    now rewrite Hv in H. }
  split; [|split; [exact Hc2|split; [|split]]].
  - now rewrite (Lazy_call_miss c lz w Hc Hn), Hv.
  - intros n. now apply (attempts_hit c (with_cache v lz) w2 n Hc2).
  - intros w3 Hc3. now apply (Lazy_call_hit c (with_cache v lz) w3 Hc3).
  - intros Hs. pose proof (value_scalar _ (lz_dom lz) w Hs) as H.
    rewrite Hv in H. simpl in H. subst w2. now rewrite H.
Qed.

(** C8.  When the value computation of a cell's field raises, the access
    raises the same exception and the cell is left as it was, without a
    cached value.  So each of any number of accesses evaluates the XPath
    again and raises again; and once the document is such that the
    computation succeeds, the access returns that value and stores it. *)
Theorem C8_failure_not_cached c lz w e w1 :
  lazies w !! c = Some lz -> cache lz = VNone ->
  value (lz_field lz) (lz_dom lz) w = (Raise e, w1) ->
  let call := (lz_dom lz, xpath_of (lz_field lz)) in
  Lazy_call c w = (Raise e, w1) /\
  lazies w1 !! c = Some lz /\
  (forall n,
     attempts n (Lazy_call c) w
     = (Return (repeat (Raise e) n), add_trace (repeat call n) w)) /\
  (forall d v w2,
     value (lz_field lz) (lz_dom lz) (set_doc d w1) = (Return v, w2) ->
     Lazy_call c (set_doc d w1) = (Return v, store_cache c v w2)).
Proof.
  intros Hc Hn Hv call.
  assert (lazies w1 !! c = Some lz) as Hc1.
  { pose proof (value_keeps_cell (lz_field lz) (lz_dom lz) c lz w Hc) as H.
    now rewrite Hv in H. }
  assert (is_scalar (lz_field lz) = true) as Hs.
  { pose proof (value_outcome (lz_field lz) (lz_dom lz) w) as H.
    rewrite Hv in H. simpl in H. destruct H as [_ H].
    now destruct (lz_field lz). }
  split; [|split; [exact Hc1|split]].
  - now rewrite (Lazy_call_miss c lz w Hc Hn), Hv.
  - assert (forall n tr,
              attempts n (Lazy_call c) (add_trace tr w)
              = (Return (repeat (Raise e) n), add_trace (tr ++ repeat call n) w)) as H.
    { induction n as [|n IH]; intros tr.
      - simpl. now rewrite List.app_nil_r.
      - rewrite attempts_S.
        rewrite (Lazy_call_miss c lz (add_trace tr w) Hc Hn).
        pose proof (value_scalar _ (lz_dom lz) (add_trace tr w) Hs) as H2.
        pose proof (value_scalar_doc _ (lz_dom lz) (add_trace tr w) w Hs eq_refl) as H1.
        rewrite Hv in H1. simpl in H1.
        destruct (value (lz_field lz) (lz_dom lz) (add_trace tr w)) as [o w'].
        simpl in H1, H2. subst o w'.
        rewrite add_trace_add_trace, IH. simpl.
        now rewrite <- List.app_assoc. }
    intros n. specialize (H n []). now rewrite add_trace_nil in H.
  - intros d v w2 Hv2.
    rewrite (Lazy_call_miss c lz (set_doc d w1) Hc1 Hn). now rewrite Hv2.
Qed.

Lemma survivors_nil_hit cls d outer :
  survivors cls d outer = [] -> first_hit cls d outer = None.
Proof.
  intros Hs. pose proof (survivors_hit cls d outer) as H.
  destruct (first_hit cls d outer) as [[[[tried m] inner] rest]|]; [|reflexivity].
  destruct H as [H _]. congruence.
Qed.

(** C10.  The value of a FirstChild field with no surviving sub-record is
    [None], the very value an empty cache holds.  The access returns it and
    leaves the cell empty, the world differing only by the evaluations made;
    so each of any number of accesses makes all of them again.  The same
    holds for any cell whose value computation returns [None]: the access
    leaves it empty. *)
Theorem C10_absent_not_cached c lz w xpath cls :
  lazies w !! c = Some lz -> cache lz = VNone ->
  lz_field lz = FirstChildField xpath cls ->
  survivors cls (doc w) (xpathEval (doc w) (lz_dom lz) xpath) = [] ->
  let once := (lz_dom lz, xpath) :: dot_calls (xpathEval (doc w) (lz_dom lz) xpath) in
  value (lz_field lz) (lz_dom lz) w = (Return (cache lz), add_trace once w) /\
  Lazy_call c w = (Return VNone, add_trace once w) /\
  lazies (add_trace once w) !! c = Some lz /\
  (forall n,
     attempts n (Lazy_call c) w
     = (Return (repeat (Return VNone) n), add_trace (concat (repeat once n)) w)) /\
  (forall c' lz' w' w1',
     lazies w' !! c' = Some lz' -> cache lz' = VNone ->
     value (lz_field lz') (lz_dom lz') w' = (Return VNone, w1') ->
     Lazy_call c' w' = (Return VNone, w1') /\ lazies w1' !! c' = Some lz').
Proof.
  intros Hc Hn Hf Hs once.
  assert (forall tr,
            value (lz_field lz) (lz_dom lz) (add_trace tr w)
            = (Return VNone, add_trace (tr ++ once) w)) as Hv.
  { intros tr. rewrite Hf. simpl. rewrite FirstChildField_value_eq. simpl.
    rewrite (survivors_nil_hit _ _ _ Hs). now rewrite add_trace_add_trace. }
  assert (forall c' lz' w' w1',
            lazies w' !! c' = Some lz' -> cache lz' = VNone ->
            value (lz_field lz') (lz_dom lz') w' = (Return VNone, w1') ->
            Lazy_call c' w' = (Return VNone, w1') /\ lazies w1' !! c' = Some lz') as Hgen.
  { intros c' lz' w' w1' Hc' Hn' Hv'.
    assert (lazies w1' !! c' = Some lz') as Hk.
    { pose proof (value_keeps_cell (lz_field lz') (lz_dom lz') c' lz' w' Hc') as H.
      now rewrite Hv' in H. }
    split; [|exact Hk].
    rewrite (Lazy_call_miss c' lz' w' Hc' Hn'), Hv'.
    now rewrite (store_cache_None c' lz' w1' Hk Hn'). }
  pose proof (Hv []) as Hv0. rewrite add_trace_nil in Hv0. simpl in Hv0.
  split; [now rewrite Hn|]. split; [|split; [exact Hc|split; [|exact Hgen]]].
  - now apply (Hgen c lz w _ Hc Hn).
  - assert (forall n tr,
              attempts n (Lazy_call c) (add_trace tr w)
              = (Return (repeat (Return VNone) n),
                 add_trace (tr ++ concat (repeat once n)) w)) as H.
    { induction n as [|n IH]; intros tr.
      - simpl. now rewrite List.app_nil_r.
      - rewrite attempts_S.
        destruct (Hgen c lz (add_trace tr w) _ Hc Hn (Hv tr)) as [-> _].
        rewrite IH. now rewrite <- List.app_assoc. }
    intros n. specialize (H n []). now rewrite add_trace_nil in H.
Qed.

(** What [list(g)] does to a generator that has not been resumed yet and
    sits at the end of the heap. *)
Lemma list_of_new cls gen w fuel :
  makes cls gen ->
  let g := length (gens w) in
  let w0 := push_gen gen w in
  let nodes := pending (doc w) gen in
  let w1 :=
    store_gen g (done gen) (build_records cls nodes (add_trace (calls (doc w) gen) w0)) in
  length nodes < fuel ->
  list_of fuel g w0 = (Return (fresh_records (length (objects w)) (length nodes)), w1) /\
  trace w1 = trace w ++ calls (doc w) gen /\
  doc w1 = doc w /\
  (exists ls, lazies w1 = lazies w ++ ls) /\
  (exists os, objects w1 = objects w ++ os /\ map r_dom os = nodes /\
              Forall (fun o => r_cls o = cls) os) /\
  (forall fuel', list_of (S fuel') g w1 = (Return [], w1)).
Proof.
  intros Hm g w0 nodes w1 Hfuel.
  assert (gens w0 !! g = Some gen) as Hg.
  { subst w0 g. simpl. now rewrite lookup_app_r, Nat.sub_diag by lia. }
  destruct (build_records_frame cls nodes (add_trace (calls (doc w) gen) w0))
    as (Hd & Ht & Hgs & (ls & Hl & _) & (os & Ho & Hos & Hcl)).
  split; [|split; [|split; [|split; [|split]]]].
  - now rewrite (list_of_spec cls nodes g gen w0 fuel Hg Hm eq_refl Hfuel).
  - subst w1. simpl. now rewrite Ht.
  - subst w1. simpl. now rewrite Hd.
  - exists ls. subst w1. simpl. now rewrite Hl.
  - exists os. subst w1. simpl. now rewrite Ho.
  - intros fuel'. apply (list_of_done g gen).
    subst w1. simpl. apply list_lookup_insert_eq.
    rewrite Hgs. simpl. rewrite length_app. simpl. lia.
Qed.

(** How a Children accessor behaves in the code, for any record (the
    mechanism behind C1): the first access evaluates nothing, creates one
    generator, stores the reference to it in the cell and returns it; every
    later access returns that same generator.  Consuming the generator
    evaluates the field's XPath once, then ['.'] on each outer match, and
    yields a new sub-record over each survivor in document order; after
    that, an access followed by a traversal yields no sub-record and
    evaluates nothing. *)
Theorem children_generator_cached c lz w xpath cls :
  lazies w !! c = Some lz -> cache lz = VNone ->
  lz_field lz = ChildrenField xpath cls ->
  let dom := lz_dom lz in
  let g := length (gens w) in
  let w1 := store_cache c (VGen g) (push_gen (GChildren (C_new cls dom xpath)) w) in
  let outer := xpathEval (doc w) dom xpath in
  let nodes := survivors cls (doc w) outer in
  Lazy_call c w = (Return (VGen g), w1) /\
  trace w1 = trace w /\
  (forall w', lazies w' !! c = Some (with_cache (VGen g) lz) ->
     Lazy_call c w' = (Return (VGen g), w')) /\
  (forall fuel, length nodes < fuel ->
     exists w2,
       list_of fuel g w1
       = (Return (fresh_records (length (objects w)) (length nodes)), w2) /\
       trace w2 = trace w ++ (dom, xpath) :: dot_calls outer /\
       (exists os, objects w2 = objects w ++ os /\ map r_dom os = nodes /\
                   Forall (fun o => r_cls o = cls) os) /\
       Lazy_call c w2 = (Return (VGen g), w2) /\
       (forall fuel', list_of (S fuel') g w2 = (Return [], w2))).
Proof.
  intros Hc Hn Hf dom g w1 outer nodes.
  set (gen := GChildren (C_new cls dom xpath)).
  assert (lazies w1 !! c = Some (with_cache (VGen g) lz)) as Hc1.
  { subst w1. now apply store_cache_lookup. }
  split; [|split; [reflexivity|split]].
  - rewrite (Lazy_call_miss c lz w Hc Hn), Hf. reflexivity.
  - intros w' Hc'. now apply (Lazy_call_hit c (with_cache (VGen g) lz) w' Hc').
  - intros fuel Hfuel.
    destruct (list_of_new cls gen (store_cache c (VGen g) w) fuel eq_refl Hfuel)
      as (E & Ht & Hd & (ls & Hl) & Hos & Hdone).
    eexists. split; [exact E|]. split; [exact Ht|]. split; [exact Hos|].
    split; [|exact Hdone].
    apply (Lazy_call_hit c (with_cache (VGen g) lz)); [|discriminate].
    rewrite Hl. apply lookup_app_l_Some. simpl.
    now rewrite list_lookup_alter_eq, Hc.
Qed.


End Claims.
(** ** The claims on the sample *)

Module SampleFacts.
Import Sample.

Example strip_example :
  PyStr.strip "  Hello World
 " = "Hello World".
Proof. reflexivity. Qed.

Example lower_example : PyStr.lower "I am Inside BAR" = "i am inside bar".
Proof. reflexivity. Qed.

Example kluge_date_example :
  kluge_date "2006-10-28 00:00:00.123 -0500" = "2006-10-28 00:00:00" /\
  kluge_date "2006-10-28 00:00:00" = "2006-10-28 00:00:00" /\
  kluge_date "a.1 -2.3 -4" = "a.1 -2".
Proof. repeat split. Qed.

(** [testBars]: the three accepted [bar] elements have the same date. *)
Example bars_dates :
  map (fun n => (value (DatetimeField_init "@date" (FormatStr "junk")) n
                   (start sample_doc)).1)
      [n_bar 1; n_bar 2; n_bar 4]
  = repeat (Return (VDatetime date_2006_10_28)) 3.
Proof. reflexivity. Qed.

(** [testFoo]: the date of [name] does not parse. *)
Example foo_date :
  (Lazy_call 2 (world_of Foo n_foo)).1
  = Raise (ValueError "Can not parse date: Bogus Format").
Proof. reflexivity. Qed.

(** [testBaz]: the fields of the two [baz] elements, read through the
    accessors of the records. *)
Example baz_fields :
  let w := (bind (records Baz n_doc "//baz") (list_of 9) (start sample_doc)).2 in
  (call_field 0 "content" w).1 = Return (VStr "Hello World") /\
  (call_field 0 "average" w).1 = Return (VFloat (1234%Z, 3)) /\
  (call_field 0 "boolean" w).1 = Return (VBool true) /\
  (call_field 1 "content" w).1 = Return (VStr "Goodbye World") /\
  (call_field 1 "boolean" w).1
  = Raise (ValueError "The value (whatever) is neither true nor false") /\
  (call_field 1 "average" w).1
  = Raise (ValueError "could not convert string to float: badfloat") /\
  (call_field 1 "missing" w).1 = Raise (AttributeError "missing").
Proof. vm_compute. repeat split. Qed.

(** [testBars]: of the four [bar] elements the filter keeps three. *)
Example bars_records :
  (bind (records Bar n_doc "//bar") (list_of 9) (start sample_doc)).1
  = Return [VRecord 0; VRecord 1; VRecord 2].
Proof. reflexivity. Qed.

Lemma C3_witness :
  map (content spaced_doc) (xpathEval spaced_doc n_foo "baz/text()")
  = [" Hello World" +:+ String "010"%char ""; String "009"%char "Goodbye World "] /\
  value (TextField "baz/text()") n_foo (start spaced_doc)
  = (Return (VStr "Hello WorldGoodbye World"),
     add_trace [(n_foo, "baz/text()")] (start spaced_doc)) /\
  value (TextField "stuff/text()") (n_bar 1) (start sample_doc)
  = (Return (VStr ""), add_trace [(n_bar 1, "stuff/text()")] (start sample_doc)).
Proof.
  split; [reflexivity|]. split.
  - destruct (C3_text_value "baz/text()" n_foo (start spaced_doc))
      as (parts & s & E & _ & _ & Huniq & _).
    rewrite E. do 3 f_equal. symmetry.
    apply (Huniq ["Hello World"; "Goodbye World"]).
    + repeat constructor.
      * exists " ", (String "010"%char ""). repeat split;
          intros c [= <-]; reflexivity.
      * exists (String "009"%char ""), " ". repeat split;
          intros c [= <-]; reflexivity.
    + exists "", "". repeat split; intros c [= <-]; reflexivity.
  - destruct (C3_text_value "stuff/text()" (n_bar 1) (start sample_doc))
      as (parts & s & E & _ & _ & _ & H).
    rewrite (H eq_refl) in E. exact E.
Defined.

Lemma C4_witness :
  value (DatetimeField_init "@date" (FormatStr "junk")) (n_bar 1) (start sample_doc)
  = (Return (VDatetime date_2006_10_28),
     add_trace [(n_bar 1, "@date")] (start sample_doc)) /\
  value (DatetimeField_init "name/@date" default_format) n_foo (start sample_doc)
  = (Raise (ValueError "Can not parse date: Bogus Format"),
     add_trace [(n_foo, "name/@date")] (start sample_doc)).
Proof.
  split.
  - destruct (C4_datetime_value "@date" (FormatStr "junk") (n_bar 1) (start sample_doc))
      as (_ & _ & _ & _ & H & _).
    apply (H 4 "%Y%m%d" date_2006_10_28); [reflexivity|reflexivity|].
    intros j fmt' Hj.
    do 4 (destruct j as [|j]; [intros [= <-]; reflexivity|]). lia.
  - destruct (C4_datetime_value "name/@date" default_format n_foo (start sample_doc))
      as (_ & _ & _ & _ & _ & H & _).
    apply H. intros fmt Hin. simpl in Hin.
    repeat (apply elem_of_cons in Hin as [-> | Hin]; [reflexivity|]).
    now apply not_elem_of_nil in Hin.
Defined.

Lemma C5_witness :
  (value (BooleanField_init "@bool" None None) (n_baz 1) (start sample_doc)).1
  = Return (VBool true) /\
  (exists msg,
     (value (BooleanField_init "@bool" None None) (n_baz 2) (start sample_doc)).1
     = Raise (ValueError msg)).
Proof.
  split.
  - destruct (C5_boolean_value "@bool" None None (n_baz 1) (start sample_doc))
      as (_ & _ & H & _).
    apply H. vm_compute. apply list_elem_of_here.
  - destruct (C5_boolean_value "@bool" None None (n_baz 2) (start sample_doc))
      as (_ & _ & _ & _ & H & _).
    apply H. split; vm_compute; intros Hin;
      repeat (apply elem_of_cons in Hin as [[=] | Hin]);
      now apply not_elem_of_nil in Hin.
Defined.

(** C5 as stated fails when a token is in both sets: the text [y] is a
    false token of this field, and the field's value is true. *)
Lemma C5_counterexample :
  let field := BooleanField_init "@bool" (Some ["Y"]) (Some ["y"; "n"]) in
  let s := PyStr.lower (PyStr.strip (text_of sample_doc (n_baz 1) "@bool")) in
  s ∈ map PyStr.lower ["y"; "n"] /\
  (value field (n_baz 1) (start sample_doc)).1 = Return (VBool true) /\
  (value field (n_baz 1) (start sample_doc)).1 <> Return (VBool false).
Proof.
  split; [vm_compute; apply list_elem_of_here|].
  split; [reflexivity|discriminate].
Qed.

Lemma C7_witness :
  (value (FirstChildField "baz" Baz) n_foo (start sample_doc)).1 = Return (VRecord 0) /\
  (value (FirstChildField "stuff" Stuff) (n_bar 1) (start sample_doc)).1 = Return VNone.
Proof.
  split.
  - exact (proj1 (C7_first_child_value "baz" Baz n_foo (start sample_doc))).
  - exact (proj1 (C7_first_child_value "stuff" Stuff (n_bar 1) (start sample_doc))).
Defined.

Lemma C9_witness :
  XPathRecord_init Probe (n_bar 3) (start sample_doc)
  = (Return 0, world_of Probe (n_bar 3)) /\
  trace (world_of Probe (n_bar 3)) = [] /\
  lazies (world_of Probe (n_bar 3)) !! 1
  = Some {| cache := VNone; lz_dom := n_bar 3; lz_field := IntField "@arg" |}.
Proof.
  destruct (C9_errors_only_at_access Probe (n_bar 3) (start sample_doc))
    as (E & Ht & _ & _ & H & _).
  split; [exact E|]. split; [exact Ht|].
  exact (proj2 (H 1 "int_arg" (IntField "@arg") eq_refl)).
Defined.

(** A [Probe] record over the third [bar] holds malformed data in
    [int_arg]: that access raises, the access of the other field does
    not. *)
Example unaccessed_field_is_harmless :
  (Lazy_call 1 (world_of Probe (n_bar 3))).1
  = Raise (ValueError "invalid literal for int() with base 10: stuff") /\
  (Lazy_call 0 (world_of Probe (n_bar 3))).1 = Return VNone.
Proof. split; reflexivity. Qed.

Lemma C2_witness :
  lazies (world_of Foo n_foo) !! 3
  = Some {| cache := VNone; lz_dom := n_foo; lz_field := TextField "name/text()" |} /\
  (Lazy_call 3 (world_of Foo n_foo)).1 = Return (VStr "This is my name") /\
  trace (Lazy_call 3 (world_of Foo n_foo)).2 = [(n_foo, "name/text()")] /\
  (forall n,
     attempts n (Lazy_call 3) (Lazy_call 3 (world_of Foo n_foo)).2
     = (Return (repeat (Return (VStr "This is my name")) n),
        (Lazy_call 3 (world_of Foo n_foo)).2)).
Proof.
  set (lz := {| cache := VNone; lz_dom := n_foo; lz_field := TextField "name/text()" |}
             : @Lazy node sample_float_t sample_datetime).
  assert (lazies (world_of Foo n_foo) !! 3 = Some lz) as Hc by reflexivity.
  assert (value (lz_field lz) (lz_dom lz) (world_of Foo n_foo)
          = (Return (VStr "This is my name"),
             add_trace [(n_foo, "name/text()")] (world_of Foo n_foo))) as Hv
    by reflexivity.
  split; [exact Hc|].
  destruct (C2_value_cached_once 3 lz _ _ _ Hc eq_refl Hv ltac:(discriminate))
    as (E & _ & Hn & _ & Ht).
  rewrite E. cbn [fst snd]. split; [reflexivity|]. split; [|exact Hn].
  exact (Ht eq_refl).
Defined.

(** C2 as stated fails for a FirstChild field with no surviving sub-record:
    two consecutive accesses return equal values, and the field's XPath is
    evaluated twice. *)
Lemma C2_counterexample :
  let w := world_of Probe (n_bar 1) in
  (is_Children <$> (lz_field <$> lazies w !! 0)) = Some false /\
  (attempts 2 (Lazy_call 0) w).1 = Return [Return VNone; Return VNone] /\
  trace (attempts 2 (Lazy_call 0) w).2 = [(n_bar 1, "stuff"); (n_bar 1, "stuff")].
Proof. vm_compute. repeat split. Qed.

Lemma C8_witness :
  attempts 3 (Lazy_call 2) (world_of Foo n_foo)
  = (Return (repeat (Raise (ValueError "Can not parse date: Bogus Format")) 3),
     add_trace (repeat (n_foo, "name/@date") 3) (world_of Foo n_foo)) /\
  (Lazy_call 2 (set_doc repaired_doc (Lazy_call 2 (world_of Foo n_foo)).2)).1
  = Return (VDatetime date_2006_10_28).
Proof.
  set (lz := {| cache := VNone; lz_dom := n_foo;
                lz_field := DatetimeField_init "name/@date" default_format |}
             : @Lazy node sample_float_t sample_datetime).
  set (w1 := add_trace [(n_foo, "name/@date")] (world_of Foo n_foo)).
  assert (lazies (world_of Foo n_foo) !! 2 = Some lz) as Hc by reflexivity.
  assert (value (lz_field lz) (lz_dom lz) (world_of Foo n_foo)
          = (Raise (ValueError "Can not parse date: Bogus Format"), w1)) as Hv
    by reflexivity.
  assert (value (lz_field lz) (lz_dom lz) (set_doc repaired_doc w1)
          = (Return (VDatetime date_2006_10_28),
             add_trace [(n_foo, "name/@date")] (set_doc repaired_doc w1))) as Hv'
    by reflexivity.
  destruct (C8_failure_not_cached 2 lz _ _ _ Hc eq_refl Hv) as (E & _ & Hn & Hd).
  split; [exact (Hn 3)|].
  rewrite E. cbn [snd]. now rewrite (Hd repaired_doc _ _ Hv').
Defined.

Lemma C10_witness :
  survivors Stuff sample_doc (xpathEval sample_doc (n_bar 1) "stuff") = [] /\
  attempts 3 (Lazy_call 0) (world_of Probe (n_bar 1))
  = (Return (repeat (Return VNone) 3),
     add_trace (repeat (n_bar 1, "stuff") 3) (world_of Probe (n_bar 1))).
Proof.
  set (lz := {| cache := VNone; lz_dom := n_bar 1;
                lz_field := FirstChildField "stuff" Stuff |}
             : @Lazy node sample_float_t sample_datetime).
  assert (lazies (world_of Probe (n_bar 1)) !! 0 = Some lz) as Hc by reflexivity.
  assert (survivors Stuff sample_doc (xpathEval sample_doc (n_bar 1) "stuff") = [])
    as Hs by reflexivity.
  split; [exact Hs|].
  destruct (C10_absent_not_cached (builtins := sample_builtins)
              0 lz _ "stuff" Stuff Hc eq_refl eq_refl Hs)
    as (_ & _ & _ & Hn & _).
  exact (Hn 3).
Defined.

Lemma children_generator_cached_sample :
  exists w2,
    list_of 4 0 (Lazy_call 0 (world_of Foo n_foo)).2
    = (Return [VRecord 1; VRecord 2; VRecord 3], w2) /\
    trace w2 = [(n_foo, "bar"); (n_bar 1, "."); (n_bar 2, "."); (n_bar 3, "."); (n_bar 4, ".")] /\
    list_of_call 4 0 w2 = (Return [], w2).
Proof.
  set (lz := {| cache := VNone; lz_dom := n_foo; lz_field := ChildrenField "bar" Bar |}
             : @Lazy node sample_float_t sample_datetime).
  assert (lazies (world_of Foo n_foo) !! 0 = Some lz) as Hc by reflexivity.
  destruct (children_generator_cached (builtins := sample_builtins)
              0 lz _ "bar" Bar Hc eq_refl eq_refl)
    as (E & _ & _ & H).
  destruct (H 4 ltac:(vm_compute; lia)) as (w2 & E2 & Ht & _ & Hc2 & Hdone).
  exists w2. rewrite E. cbn [snd]. split; [exact E2|]. split; [exact Ht|].
  unfold list_of_call, mbind, M_bind, bind. rewrite Hc2. apply Hdone.
Defined.

(** C1.  The code on [list(foo.bar())] done twice on the [Foo] record of
    the sample: the first traversal yields the three [Bar] sub-records; the
    second access returns the same, consumed generator, so the second
    traversal yields none, and no XPath is evaluated again.  C1 asks for a
    fresh sequence of the same length, with a new evaluation. *)
Lemma C1_failing_input :
  let first := list_of_call 9 0 (world_of Foo n_foo) in
  let second := list_of_call 9 0 first.2 in
  first.1 = Return [VRecord 1; VRecord 2; VRecord 3] /\
  second.1 = Return [] /\
  second.1 <> first.1 /\
  trace first.2
  = [(n_foo, "bar"); (n_bar 1, "."); (n_bar 2, "."); (n_bar 3, "."); (n_bar 4, ".")] /\
  trace second.2
  = [(n_foo, "bar"); (n_bar 1, "."); (n_bar 2, "."); (n_bar 3, "."); (n_bar 4, ".")].
Proof. vm_compute. repeat split. discriminate. Qed.


(** One generator of the factory is traversed once: a second traversal of
    the same object yields nothing. *)
Example records_generator_is_single_pass :
  let g := records Bar n_doc "//bar" (start sample_doc) in
  let first := list_of 9 0 g.2 in
  let second := list_of 9 0 first.2 in
  g.1 = Return 0 /\
  first.1 = Return [VRecord 0; VRecord 1; VRecord 2] /\
  second.1 = Return [] /\
  second.1 <> first.1.
Proof. vm_compute. repeat split. discriminate. Qed.

End SampleFacts.

(** ** Further properties of the fields *)

Section FieldProperties.
Context {node float datetime : Type} `{builtins : !Builtins float datetime}.
Implicit Types (w : @world node float datetime) (cls : @RecordClass node)
  (d : Document node) (nodes outer : list node) (field : @Field node)
  (lz : @Lazy node float datetime).

Lemma list_sum_ones {A} (l : list A) : list_sum (map (fun _ => 1) l) = length l.
Proof. induction l as [|x l IH]; simpl; [reflexivity|]. now rewrite IH. Qed.

Lemma join_nonempty (l : list string) :
  PyStr.join (List.filter (fun s => negb (String.eqb s "")) l) = PyStr.join l.
Proof.
  induction l as [|s l IH]; simpl; [reflexivity|].
  destruct (String.eqb_spec s "") as [->|Hs]; simpl.
  - now rewrite IH, sapp_nil_l.
  - now rewrite IH.
Qed.

(** X1.  A NodeExists field evaluates its XPath once and never raises; its
    value is true exactly when the evaluation has at least one result.  When
    it is false, the Text field of the same XPath is the empty string and a
    Children or FirstChild field of the same XPath has no sub-record. *)
Theorem node_exists_value xpath (dom : node) w cls :
  let results := xpathEval (doc w) dom xpath in
  value (NodeExistsField xpath) dom w
  = (Return (VBool (0 <? length results)%nat), add_trace [(dom, xpath)] w) /\
  ((0 <? length results)%nat = false ->
   text_of (doc w) dom xpath = "" /\ survivors cls (doc w) results = []).
Proof.
  intros results. split.
  - simpl. unfold NodeExistsField_value. munfold. simpl.
    fold results. now rewrite list_sum_ones.
  - intros H. unfold text_of. fold results.
    destruct results; [split; reflexivity|discriminate].
Qed.

(** X2.  A Text field does not see result nodes whose content is blank: its
    value is the trim of the concatenation of the non-empty trimmed
    contents. *)
Theorem text_ignores_blank_nodes xpath (dom : node) w :
  let parts := map (fun n => PyStr.strip (content (doc w) n))
                   (xpathEval (doc w) dom xpath) in
  let kept := List.filter (fun s => negb (String.eqb s "")) parts in
  value (TextField xpath) dom w
  = (Return (VStr (PyStr.strip (fold_right String.append "" kept))),
     add_trace [(dom, xpath)] w).
Proof.
  intros parts kept. simpl. munfold. rewrite TextField_value_eq. simpl.
  unfold text_of. fold parts.
  now rewrite <- (join_nonempty parts).
Qed.

Lemma value_None_inv field (dom : node) w w1 :
  value field dom w = (Return VNone, w1) ->
  exists xpath cls,
    field = FirstChildField xpath cls /\
    survivors cls (doc w) (xpathEval (doc w) dom xpath) = [].
Proof.
  destruct field; simpl;
    unfold FloatField_value, IntField_value, BooleanField_value,
      DatetimeField_value, NodeExistsField_value, ChildrenField_value; munfold;
    rewrite ?TextField_value_eq; simpl; try discriminate;
    try (repeat case_head; discriminate).
  rewrite FirstChildField_value_eq.
  pose proof (survivors_hit cls (doc w) (xpathEval (doc w) dom xpath)) as H.
  destruct (first_hit _ _ _) as [[[[tried m] inner] rest]|]; [discriminate|].
  intros _. now exists xpath, cls.
Qed.

(** X3.  [None] is the value of no field but FirstChild, and of a FirstChild
    field only when no sub-record survives. *)
Theorem only_first_child_returns_None field (dom : node) w w1 :
  value field dom w = (Return VNone, w1) ->
  exists xpath cls,
    field = FirstChildField xpath cls /\
    survivors cls (doc w) (xpathEval (doc w) dom xpath) = [] /\
    w1 = add_trace ((dom, xpath) :: dot_calls (xpathEval (doc w) dom xpath)) w.
Proof.
  intros Hv. destruct (value_None_inv _ _ _ _ Hv) as (xpath & cls & -> & Hs).
  exists xpath, cls. split; [reflexivity|]. split; [exact Hs|].
  simpl in Hv. rewrite FirstChildField_value_eq in Hv.
  rewrite (survivors_nil_hit _ _ _ Hs) in Hv. congruence.
Qed.

(** X4.  A value that Python counts as false is cached like any other: when
    the first access of a Text, Integer, Float, Boolean, Datetime or
    NodeExists field returns (be it [False], [0] or the empty string), all
    of any number of accesses return that value and the XPath is evaluated
    once. *)
Theorem falsy_values_are_cached c lz w v w1 n :
  lazies w !! c = Some lz -> cache lz = VNone ->
  is_scalar (lz_field lz) = true ->
  value (lz_field lz) (lz_dom lz) w = (Return v, w1) ->
  let w2 := store_cache c v (add_trace [(lz_dom lz, xpath_of (lz_field lz))] w) in
  v <> VNone /\
  attempts (S n) (Lazy_call c) w = (Return (repeat (Return v) (S n)), w2) /\
  trace w2 = trace w ++ [(lz_dom lz, xpath_of (lz_field lz))].
Proof.
  intros Hc Hn Hs Hv w2.
  assert (v <> VNone) as Hne.
  { intros ->. destruct (value_None_inv _ _ _ _ Hv) as (x & cl & E & _).
    rewrite E in Hs. discriminate. }
  assert (w1 = add_trace [(lz_dom lz, xpath_of (lz_field lz))] w) as ->.
  { pose proof (value_scalar _ (lz_dom lz) w Hs) as H. now rewrite Hv in H. }
  split; [exact Hne|]. split; [|reflexivity].
  rewrite attempts_S, (Lazy_call_miss c lz w Hc Hn), Hv. fold w2.
  assert (lazies w2 !! c = Some (with_cache v lz)) as Hc2
    by now apply store_cache_lookup.
  now rewrite (attempts_hit c (with_cache v lz) w2 n Hc2).
Qed.

(** X5.  The Integer (or Float) accessor of a record agrees with its Text
    accessor of the same XPath: when the Text accessor has returned [t], the
    Integer accessor returns [int(t)], or raises the [ValueError] of
    [int(t)]; likewise for Float. *)
Theorem number_accessor_agrees_with_text c1 c2 lz1 lz2 w xpath :
  lazies w !! c1 = Some lz1 -> lazies w !! c2 = Some lz2 -> c1 <> c2 ->
  cache lz1 = VNone -> cache lz2 = VNone ->
  lz_dom lz1 = lz_dom lz2 ->
  lz_field lz1 = TextField xpath ->
  let t := text_of (doc w) (lz_dom lz1) xpath in
  let w1 := store_cache c1 (VStr t) (add_trace [(lz_dom lz1, xpath)] w) in
  Lazy_call c1 w = (Return (VStr t), w1) /\
  (lz_field lz2 = IntField xpath ->
   (Lazy_call c2 w1).1
   = match py_int t with
     | inr z => Return (VInt z)
     | inl msg => Raise (ValueError msg)
     end) /\
  (lz_field lz2 = FloatField xpath ->
   (Lazy_call c2 w1).1
   = match py_float t with
     | inr x => Return (VFloat x)
     | inl msg => Raise (ValueError msg)
     end).
Proof.
  intros Hc1 Hc2 Hne Hn1 Hn2 Hd Hf1 t w1.
  assert (lazies w1 !! c2 = Some lz2) as Hc2'.
  { subst w1. simpl. now rewrite list_lookup_alter_ne. }
  split; [|split].
  - rewrite (Lazy_call_miss c1 lz1 w Hc1 Hn1), Hf1. reflexivity.
  - intros Hf2. rewrite (Lazy_call_miss c2 lz2 w1 Hc2' Hn2), Hf2, <- Hd. simpl.
    unfold IntField_value. munfold. rewrite TextField_value_eq. simpl. fold t.
    now destruct (py_int t).
  - intros Hf2. rewrite (Lazy_call_miss c2 lz2 w1 Hc2' Hn2), Hf2, <- Hd. simpl.
    unfold FloatField_value. munfold. rewrite TextField_value_eq. simpl. fold t.
    now destruct (py_float t).
Qed.

(** X6.  An access never writes to the document and changes no object but
    its own cell: the trace only grows, every other cell, every record
    instance and every generator that exists stays as it is, and the
    accessed cell keeps its node and its field. *)
Theorem access_changes_only_its_cell c w :
  let w' := (Lazy_call c w).2 in
  doc w' = doc w /\
  (exists tr, trace w' = trace w ++ tr) /\
  (forall c', c' <> c -> c' < length (lazies w) -> lazies w' !! c' = lazies w !! c') /\
  (forall r, r < length (objects w) -> objects w' !! r = objects w !! r) /\
  (forall g, g < length (gens w) -> gens w' !! g = gens w !! g) /\
  (forall lz, lazies w !! c = Some lz ->
     exists v, lazies w' !! c = Some (with_cache v lz)).
Proof.
  intros w'. subst w'. unfold Lazy_call.
  assert (forall lz, with_cache (cache lz) lz = lz) as Hid by now intros [].
  destruct (lazies w !! c) as [lz|] eqn:Hc; simpl.
  2: { repeat split; auto; [exists []; now rewrite List.app_nil_r|discriminate]. }
  destruct (is_None (cache lz)); simpl.
  2: { repeat split; auto; [exists []; now rewrite List.app_nil_r|].
       intros lz' [= <-]. exists (cache lz). now rewrite Hid. }
  munfold.
  destruct (value_frame (lz_field lz) (lz_dom lz) w)
    as (Hd & Ht & (ls & Hl) & (os & Ho) & (gs & Hg)).
  destruct (value (lz_field lz) (lz_dom lz) w) as [[v|e|f] w1]; simpl in *.
  - split; [exact Hd|]. split; [exact Ht|]. split; [|split; [|split]].
    + intros c' Hne Hlt. rewrite list_lookup_alter_ne by auto.
      rewrite Hl. now apply lookup_app_l.
    + intros r Hlt. rewrite Ho. now apply lookup_app_l.
    + intros g Hlt. rewrite Hg. now apply lookup_app_l.
    + intros lz' [= <-]. exists v. rewrite list_lookup_alter_eq.
      rewrite Hl, (lookup_app_l_Some _ _ _ _ Hc). reflexivity.
  - split; [exact Hd|]. split; [exact Ht|]. split; [|split; [|split]].
    + intros c' Hne Hlt. rewrite Hl. now apply lookup_app_l.
    + intros r Hlt. rewrite Ho. now apply lookup_app_l.
    + intros g Hlt. rewrite Hg. now apply lookup_app_l.
    + intros lz' [= <-]. exists (cache lz).
      rewrite Hl, (lookup_app_l_Some _ _ _ _ Hc). now rewrite Hid.
  - split; [exact Hd|]. split; [exact Ht|]. split; [|split; [|split]].
    + intros c' Hne Hlt. rewrite Hl. now apply lookup_app_l.
    + intros r Hlt. rewrite Ho. now apply lookup_app_l.
    + intros g Hlt. rewrite Hg. now apply lookup_app_l.
    + intros lz' [= <-]. exists (cache lz).
      rewrite Hl, (lookup_app_l_Some _ _ _ _ Hc). now rewrite Hid.
Qed.

Lemma new_attrs_names base (fs : list (string * @Field node)) :
  map fst (new_attrs base fs) = map fst fs.
Proof.
  revert base. induction fs as [|a fs IH]; intros base; simpl; [reflexivity|].
  now rewrite IH.
Qed.

Lemma new_attrs_find base (fs : list (string * @Field node)) i name field :
  NoDup (map fst fs) -> fs !! i = Some (name, field) ->
  list_find (fun a => a.1 = name) (new_attrs base fs) = Some (i, (name, base + i)).
Proof.
  revert base i. induction fs as [|[n f] fs IH]; intros base i Hnd Hi; [discriminate|].
  apply NoDup_cons in Hnd as [Hnotin Hnd]. simpl in *.
  destruct i as [|i]; simpl in Hi.
  - injection Hi as -> ->. rewrite decide_True by reflexivity.
    now rewrite Nat.add_0_r.
  - rewrite decide_False.
    + rewrite (IH (S base) i Hnd Hi). simpl. do 3 f_equal. lia.
    + simpl. intros ->. apply Hnotin.
      apply list_elem_of_fmap. exists (name, field). split; [reflexivity|].
      now apply list_elem_of_lookup_2 in Hi.
Qed.

(** X7.  Construction gives a record one accessor per declared field, under
    the field's name: the accessor of a new record is the call of a new,
    empty cell bound to the record's node and that field, so its first call
    computes that field's value on that node and stores what it returns. *)
Theorem accessor_is_field_value cls (dom : node) w i name field :
  NoDup (map fst (cls_fields cls)) ->
  cls_fields cls !! i = Some (name, field) ->
  let r := length (objects w) in
  let c := length (lazies w) + i in
  let w' := new_record cls dom w in
  XPathRecord_init cls dom w = (Return r, w') /\
  (exists o, objects w' !! r = Some o /\ map fst (r_attrs o) = map fst (cls_fields cls)) /\
  lazies w' !! c = Some {| cache := VNone; lz_dom := dom; lz_field := field |} /\
  call_field r name w'
  = match value field dom w' with
    | (Return v, w1) => (Return v, store_cache c v w1)
    | (Raise e, w1) => (Raise e, w1)
    | (Stuck f, w1) => (Stuck f, w1)
    end.
Proof.
  intros Hnd Hi r c w'.
  assert (objects w' !! r = Some (new_object cls dom (length (lazies w)))) as Ho.
  { subst w' r. simpl. now rewrite lookup_app_r, Nat.sub_diag by lia. }
  assert (lazies w' !! c = Some {| cache := VNone; lz_dom := dom; lz_field := field |})
    as Hc.
  { subst w' c. simpl. rewrite lookup_app_r by lia.
    replace (length (lazies w) + i - length (lazies w)) with i by lia.
    unfold new_cells. now rewrite list_lookup_fmap, Hi. }
  split; [apply XPathRecord_init_eq|]. split; [|split; [exact Hc|]].
  - eexists. split; [exact Ho|]. apply new_attrs_names.
  - rewrite (call_field_cell r _ name i c w' Ho).
    + now rewrite (Lazy_call_miss c _ w' Hc eq_refl).
    + simpl. now apply (new_attrs_find _ _ i name field).
Qed.

Lemma head_fmap_dom (os : list (@RecordObj node)) :
  r_dom <$> head os = head (map r_dom os).
Proof. now destruct os. Qed.

Lemma lookup_first_new {A} (l os : list A) : (l ++ os) !! length l = head os.
Proof. rewrite lookup_app_r, Nat.sub_diag by lia. now destruct os. Qed.

(** X8.  A FirstChild field and a Children field of the same XPath and
    sub-type agree: the FirstChild value is [None] exactly when the
    traversal of the Children value yields nothing, and otherwise both put a
    record over the same node, the first survivor, at the same place. *)
Theorem first_child_is_first_of_children xpath cls (dom : node) w fuel :
  let nodes := survivors cls (doc w) (xpathEval (doc w) dom xpath) in
  length nodes < fuel ->
  let first := value (FirstChildField xpath cls) dom w in
  let all := bind (ChildrenField_value xpath cls dom) (list_of fuel) w in
  all.1 = Return (fresh_records (length (objects w)) (length nodes)) /\
  first.1 = Return (match nodes with
                    | [] => VNone
                    | _ :: _ => VRecord (length (objects w))
                    end) /\
  (r_dom <$> objects first.2 !! length (objects w)) = head nodes /\
  (r_dom <$> objects all.2 !! length (objects w)) = head nodes.
Proof.
  intros nodes Hfuel first all.
  set (gen := GChildren (C_new cls dom xpath)).
  destruct (list_of_new cls gen w fuel eq_refl Hfuel)
    as (E & _ & _ & _ & (os & Ho & Hos & _) & _).
  assert (all = list_of fuel (length (gens w)) (push_gen gen w)) as Hall by reflexivity.
  rewrite Hall, E. cbn [fst snd]. split; [reflexivity|].
  assert (first.1 = Return (match nodes with
                            | [] => VNone
                            | _ :: _ => VRecord (length (objects w))
                            end) /\
          (r_dom <$> objects first.2 !! length (objects w)) = head nodes) as [H1 H2].
  { subst first. simpl. rewrite FirstChildField_value_eq.
    pose proof (survivors_hit cls (doc w) (xpathEval (doc w) dom xpath)) as H.
    fold nodes in H.
    destruct (first_hit _ _ _) as [[[[tried m] inner] rest]|].
    - destruct H as [-> _]. simpl. split; [reflexivity|].
      now rewrite lookup_first_new.
    - rewrite H. simpl. split; [reflexivity|].
      now rewrite lookup_ge_None_2 by lia. }
  split; [exact H1|]. split; [exact H2|].
  rewrite Ho, lookup_first_new, head_fmap_dom. now rewrite Hos.
Qed.

Lemma survivors_cons cls d n outer :
  survivors cls d (n :: outer)
  = accepted cls d (xpathEval d n ".") ++ survivors cls d outer.
Proof. reflexivity. Qed.

Lemma survivors_app cls d l1 l2 :
  survivors cls d (l1 ++ l2) = survivors cls d l1 ++ survivors cls d l2.
Proof. apply flat_map_app. Qed.

Lemma first_hit_tried cls d outer tried m inner rest :
  first_hit cls d outer = Some (tried, m, inner, rest) ->
  survivors cls d (removelast tried) = [] /\
  survivors cls d tried = m :: accepted cls d inner.
Proof.
  revert tried. induction outer as [|n outer IH]; intros tried; [discriminate|].
  simpl. pose proof (accepted_next cls d (xpathEval d n ".")) as Ha.
  destruct (next_accepted cls d (xpathEval d n ".")) as [[m' inner']|].
  - intros [= <- <- <- <-]. split; [reflexivity|].
    rewrite survivors_cons, Ha. simpl. now rewrite List.app_nil_r.
  - destruct (first_hit cls d outer) as [[[[tried' m'] inner'] rest']|];
      [|discriminate].
    intros [= <- <- <- <-]. destruct (IH tried' eq_refl) as [Hr Hs].
    split; [|now rewrite survivors_cons, Ha].
    destruct tried' as [|t tried']; [discriminate|].
    change (removelast (n :: t :: tried')) with (n :: removelast (t :: tried')).
    now rewrite survivors_cons, Ha, Hr.
Qed.

(** X9.  A FirstChild field stops at the first survivor: after its own
    XPath it evaluates ['.'] on the outer matches in order, up to and
    including the first one under which a sub-record survives, and on none
    after it; it constructs at most one record. *)
Theorem first_child_stops_at_first_survivor xpath cls (dom : node) w :
  let outer := xpathEval (doc w) dom xpath in
  let w' := (value (FirstChildField xpath cls) dom w).2 in
  exists tried rest,
    outer = tried ++ rest /\
    trace w' = trace w ++ (dom, xpath) :: dot_calls tried /\
    survivors cls (doc w) (removelast tried) = [] /\
    (survivors cls (doc w) outer = [] -> rest = []) /\
    (survivors cls (doc w) outer <> [] -> survivors cls (doc w) tried <> []) /\
    length (objects w') <= S (length (objects w)).
Proof.
  intros outer w'. subst w'. simpl. rewrite FirstChildField_value_eq. fold outer.
  pose proof (survivors_hit cls (doc w) outer) as H.
  destruct (first_hit cls (doc w) outer) as [[[[tried m] inner] rest]|] eqn:E.
  - destruct H as [Hs Ho]. destruct (first_hit_tried _ _ _ _ _ _ _ E) as [Hr Ht].
    exists tried, rest. simpl.
    split; [exact Ho|]. split; [reflexivity|]. split; [exact Hr|].
    split; [rewrite Hs; discriminate|].
    split; [intros _; rewrite Ht; discriminate|].
    rewrite length_app. simpl. lia.
  - exists outer, []. simpl. rewrite List.app_nil_r.
    split; [reflexivity|]. split; [reflexivity|].
    split; [|split; [reflexivity|split; [intros Hne; now contradict Hne|lia]]].
    clear -H. induction outer as [|n outer IH] using rev_ind; [reflexivity|].
    rewrite removelast_last. rewrite survivors_app in H.
    now apply app_eq_nil in H as [H _].
Qed.

Lemma survivors_self cls d outer :
  (forall n, xpathEval d n "." = [n]) ->
  survivors cls d outer = accepted cls d outer.
Proof.
  intros Hself. induction outer as [|n outer IH]; [reflexivity|].
  rewrite survivors_cons, Hself, IH. unfold accepted. simpl.
  now destruct (record_filter cls d n).
Qed.

(** X10.  When ['.'] evaluates to the node itself, a Children field yields
    exactly one sub-record for each outer match that the sub-type's filter
    accepts, in the order of the matches, after evaluating its XPath once
    and ['.'] once per match; and the FirstChild value is [None] exactly
    when the filter accepts no match. *)
Theorem children_when_dot_is_self xpath cls (dom : node) w fuel :
  (forall n, xpathEval (doc w) n "." = [n]) ->
  let outer := xpathEval (doc w) dom xpath in
  let nodes := List.filter (record_filter cls (doc w)) outer in
  length nodes < fuel ->
  let all := bind (ChildrenField_value xpath cls dom) (list_of fuel) w in
  all.1 = Return (fresh_records (length (objects w)) (length nodes)) /\
  (exists os, objects all.2 = objects w ++ os /\ map r_dom os = nodes /\
              Forall (fun o => r_cls o = cls) os) /\
  trace all.2 = trace w ++ (dom, xpath) :: dot_calls outer /\
  (value (FirstChildField xpath cls) dom w).1
  = Return (match nodes with [] => VNone | _ :: _ => VRecord (length (objects w)) end).
Proof.
  intros Hself outer nodes Hfuel all.
  set (gen := GChildren (C_new cls dom xpath)).
  assert (pending (doc w) gen = nodes) as Hp.
  { simpl. now rewrite (survivors_self _ _ _ Hself). }
  destruct (list_of_new cls gen w fuel eq_refl ltac:(now rewrite Hp))
    as (E & Ht & _ & _ & Hos & _).
  rewrite Hp in E, Ht, Hos.
  assert (all = list_of fuel (length (gens w)) (push_gen gen w)) as Hall by reflexivity.
  rewrite Hall, E. cbn [fst snd]. split; [reflexivity|]. split; [exact Hos|].
  split; [exact Ht|].
  simpl. rewrite FirstChildField_value_eq. fold outer.
  pose proof (survivors_hit cls (doc w) outer) as H.
  rewrite (survivors_self _ _ _ Hself) in H. fold nodes in H. unfold accepted in H.
  fold nodes in H.
  destruct (first_hit cls (doc w) outer) as [[[[tried m] inner] rest]|].
  - destruct H as [-> _]. reflexivity.
  - now rewrite H.
Qed.

(** X11.  A Boolean field ignores case throughout: two declarations whose
    token lists agree up to case, read on two documents whose texts agree up
    to case, have the same outcome (the same boolean, or the same
    [ValueError]).  Omitting the token lists is the same as giving the
    defaults. *)
Theorem boolean_ignores_case xpath tv1 tv2 fv1 fv2 (dom : node) w1 w2 :
  (map PyStr.lower <$> tv1) = (map PyStr.lower <$> tv2) ->
  (map PyStr.lower <$> fv1) = (map PyStr.lower <$> fv2) ->
  PyStr.lower (text_of (doc w1) dom xpath) = PyStr.lower (text_of (doc w2) dom xpath) ->
  (value (BooleanField_init xpath tv1 fv1) dom w1).1
  = (value (BooleanField_init xpath tv2 fv2) dom w2).1 /\
  BooleanField_init xpath None None
  = @BooleanField_init node xpath (Some DEFAULT_TRUE_VALUES) (Some DEFAULT_FALSE_VALUES).
Proof.
  intros Ht Hf Htext. split; [|reflexivity].
  assert (@BooleanField_init node xpath tv1 fv1 = BooleanField_init xpath tv2 fv2) as ->.
  { unfold BooleanField_init.
    destruct tv1, tv2; try discriminate; destruct fv1, fv2; try discriminate;
      simpl in Ht, Hf; congruence. }
  unfold BooleanField_init. simpl. unfold BooleanField_value. munfold.
  rewrite !TextField_value_eq. simpl.
  assert (forall d, PyStr.strip (text_of d dom xpath) = text_of d dom xpath) as Hstrip.
  { intros d. unfold text_of. apply PyStrFacts.strip_idem. }
  rewrite !Hstrip, Htext.
  repeat case_bool_decide; reflexivity.
Qed.

Lemma kluge_match_dot s rest : kluge_match s = Some rest -> has_dot s = true.
Proof.
  intros (m & Hm & -> & _)%kluge_match_sound.
  now rewrite has_dot_app, (kluge_suffix_dot _ Hm).
Qed.

Lemma slength_app s t : String.length (s +:+ t) = String.length s + String.length t.
Proof. induction s as [|c s IH]; [reflexivity|]. rewrite sapp_cons. simpl. now rewrite IH. Qed.

Lemma kluge_date_length s : String.length (kluge_date s) <= String.length s.
Proof.
  induction s as [|c s IH]; [simpl; lia|].
  rewrite kluge_date_eq.
  destruct (kluge_match (String c s)) as [rest|] eqn:E.
  - apply kluge_match_sound in E as (m & _ & -> & _).
    rewrite slength_app. lia.
  - simpl. lia.
Qed.

(** X12.  The cleanup of a date text never lengthens it, and returns a text
    without a dot as it is: dates with no fractional part are handed to the
    formats unchanged. *)
Theorem kluge_date_keeps_dotless s :
  has_dot s = false ->
  kluge_date s = s /\
  (forall t, String.length (kluge_date t) <= String.length t).
Proof.
  intros Hs. split; [|apply kluge_date_length].
  apply kluge_date_id. intros p t ->.
  destruct (kluge_match t) as [rest|] eqn:E; [|reflexivity].
  apply kluge_match_dot in E. rewrite has_dot_app, E, orb_true_r in Hs. discriminate.
Qed.

Lemma build_records_cells cls nodes w :
  lazies (build_records cls nodes w)
  = lazies w ++ concat (map (fun n => new_cells n (cls_fields cls)) nodes).
Proof.
  revert w. induction nodes as [|n nodes IH]; intros w; simpl.
  - now rewrite List.app_nil_r.
  - rewrite IH. simpl. now rewrite <- List.app_assoc.
Qed.

(** X13.  The filter guards the fields: if a field's value is computed
    without error on every node the filter of a record type accepts, then on
    every record the factory yields, the first access of that field
    returns. *)
Theorem filter_guards_access cls (dom : node) xpath w fuel field :
  (forall n w0, doc w0 = doc w -> record_filter cls (doc w) n = true ->
     exists v, (value field n w0).1 = Return v) ->
  length (accepted cls (doc w) (xpathEval (doc w) dom xpath)) < fuel ->
  let w1 := (bind (records cls dom xpath) (list_of fuel) w).2 in
  forall c lz,
    lazies w1 !! c = Some lz -> length (lazies w) <= c -> lz_field lz = field ->
    cache lz = VNone /\
    record_filter cls (doc w) (lz_dom lz) = true /\
    exists v, (Lazy_call c w1).1 = Return v.
Proof.
  intros Hguard Hfuel w1 c lz Hc Hge Hf.
  set (gen := GRecords (R_new cls dom xpath)).
  destruct (list_of_new cls gen w fuel eq_refl Hfuel) as (E & _ & Hd & _).
  assert (w1 = (list_of fuel (length (gens w)) (push_gen gen w)).2) as Hw1
    by reflexivity.
  rewrite E in Hw1. cbn [snd] in Hw1.
  assert (lazies w1 = lazies w ++
            concat (map (fun n => new_cells n (cls_fields cls))
                        (accepted cls (doc w) (xpathEval (doc w) dom xpath)))) as Hl.
  { rewrite Hw1. simpl. now rewrite build_records_cells. }
  assert (doc w1 = doc w) as Hd1 by (rewrite Hw1; exact Hd).
  pose proof Hc as Hin. rewrite Hl, lookup_app_r in Hin by lia.
  apply list_elem_of_lookup_2, list_elem_of_In in Hin.
  apply in_concat in Hin as (cells & Hcells & Hin).
  apply in_map_iff in Hcells as (n & <- & Hn).
  unfold new_cells in Hin. apply in_map_iff in Hin as (a & <- & _).
  simpl in *.
  assert (record_filter cls (doc w) n = true) as Hacc.
  { unfold accepted in Hn. apply filter_In in Hn. tauto. }
  split; [reflexivity|]. split; [exact Hacc|].
  destruct (Hguard n w1 Hd1 Hacc) as [v Hv].
  exists v. rewrite (Lazy_call_miss c _ w1 Hc eq_refl). simpl. rewrite Hf.
  destruct (value field n w1) as [[v'|e|f] w2]; simpl in *; congruence.
Qed.

(** X14.  Resuming a generator of the factory or of a Children field does
    one step: with a node pending it yields one new record, over the first
    pending node, and leaves the generator with the other nodes pending;
    with none pending it stops, constructs nothing and is left finished.
    The document is not written to, and the evaluations made are taken off
    those the generator still had to make. *)
Theorem next_is_one_step cls g gen w :
  gens w !! g = Some gen -> makes cls gen ->
  let res := next g w in
  doc res.2 = doc w /\
  match pending (doc w) gen with
  | [] =>
      res.1 = Return None /\
      objects res.2 = objects w /\ lazies res.2 = lazies w /\
      trace res.2 = trace w ++ calls (doc w) gen /\
      gens res.2 !! g = Some (done gen)
  | n :: p =>
      res.1 = Return (Some (VRecord (length (objects w)))) /\
      objects res.2 = objects w ++ [new_object cls n (length (lazies w))] /\
      exists gen' tr,
        gens res.2 !! g = Some gen' /\ makes cls gen' /\
        pending (doc w) gen' = p /\
        trace res.2 = trace w ++ tr /\
        calls (doc w) gen = tr ++ calls (doc w) gen'
  end.
Proof.
  intros Hg Hm res. subst res.
  assert (g < length (gens w)) as Hlt by now apply lookup_lt_Some in Hg.
  pose proof (next_spec cls g gen w Hg Hm) as H.
  destruct (pending (doc w) gen) as [|n p].
  - rewrite H. simpl. repeat split; auto. now apply list_lookup_insert_eq.
  - destruct H as (gen' & tr & Hm' & Hp & _ & Hc & E). rewrite E. simpl.
    repeat split; auto. exists gen', tr. repeat split; auto.
    now apply list_lookup_insert_eq.
Qed.

End FieldProperties.

(** ** The further properties on the sample *)

Module SampleProperties.
Import Sample.

Lemma only_first_child_returns_None_witness :
  exists xpath cls,
    FirstChildField "stuff" Stuff = FirstChildField xpath cls /\
    survivors cls sample_doc (xpathEval sample_doc (n_bar 1) xpath) = [].
Proof.
  assert (value (FirstChildField "stuff" Stuff) (n_bar 1) (start sample_doc)
          = (Return VNone, add_trace [(n_bar 1, "stuff")] (start sample_doc))) as Hv
    by reflexivity.
  destruct (only_first_child_returns_None (builtins := sample_builtins) _ _ _ _ Hv)
    as (xpath & cls & E & Hs & _).
  now exists xpath, cls.
Defined.

Lemma falsy_values_are_cached_witness :
  attempts 3 (Lazy_call 2) (world_of Bar (n_bar 1))
  = (Return (repeat (Return (VBool false)) 3),
     store_cache 2 (VBool false)
       (add_trace [(n_bar 1, "stuff/text()")] (world_of Bar (n_bar 1)))).
Proof.
  set (lz := {| cache := VNone; lz_dom := n_bar 1;
                lz_field := NodeExistsField "stuff/text()" |}
             : @Lazy node sample_float_t sample_datetime).
  assert (lazies (world_of Bar (n_bar 1)) !! 2 = Some lz) as Hc by reflexivity.
  assert (value (lz_field lz) (lz_dom lz) (world_of Bar (n_bar 1))
          = (Return (VBool false),
             add_trace [(n_bar 1, "stuff/text()")] (world_of Bar (n_bar 1)))) as Hv
    by reflexivity.
  exact (proj1 (proj2 (falsy_values_are_cached 2 lz _ _ _ 2 Hc eq_refl eq_refl Hv))).
Defined.

Lemma number_accessor_agrees_with_text_witness :
  (Lazy_call 0 (world_of Bar (n_bar 2))).1 = Return (VStr "2") /\
  (Lazy_call 3 (Lazy_call 0 (world_of Bar (n_bar 2))).2).1 = Return (VInt 2).
Proof.
  set (lz1 := {| cache := VNone; lz_dom := n_bar 2; lz_field := TextField "@arg" |}
              : @Lazy node sample_float_t sample_datetime).
  set (lz2 := {| cache := VNone; lz_dom := n_bar 2; lz_field := IntField "@arg" |}
              : @Lazy node sample_float_t sample_datetime).
  assert (lazies (world_of Bar (n_bar 2)) !! 0 = Some lz1) as Hc1 by reflexivity.
  assert (lazies (world_of Bar (n_bar 2)) !! 3 = Some lz2) as Hc2 by reflexivity.
  destruct (number_accessor_agrees_with_text (builtins := sample_builtins)
              0 3 lz1 lz2 _ "@arg" Hc1 Hc2 ltac:(discriminate)
              eq_refl eq_refl eq_refl eq_refl)
    as (E & Hint & _).
  rewrite E. cbn [fst snd]. split; [reflexivity|].
  rewrite (Hint eq_refl). reflexivity.
Defined.

Lemma accessor_is_field_value_witness :
  (call_field 0 "int_arg" (world_of Bar (n_bar 2))).1 = Return (VInt 2).
Proof.
  assert (NoDup (map fst (cls_fields Bar))) as Hnd.
  { apply (bool_decide_unpack _). vm_compute. exact I. }
  destruct (accessor_is_field_value (builtins := sample_builtins)
              Bar (n_bar 2) (start sample_doc) 3 "int_arg" (IntField "@arg")
              Hnd eq_refl)
    as (_ & _ & _ & E).
  etransitivity; [exact (f_equal fst E)|reflexivity].
Defined.

Lemma first_child_is_first_of_children_witness :
  (value (FirstChildField "baz" Baz) n_foo (start sample_doc)).1
  = Return (VRecord 0) /\
  (r_dom <$> objects (value (FirstChildField "baz" Baz) n_foo (start sample_doc)).2 !! 0)
  = Some (n_baz 1) /\
  (r_dom <$> objects (bind (ChildrenField_value "baz" Baz n_foo) (list_of 3)
                        (start sample_doc)).2 !! 0)
  = Some (n_baz 1).
Proof.
  destruct (first_child_is_first_of_children (builtins := sample_builtins)
              "baz" Baz n_foo (start sample_doc) 3 ltac:(vm_compute; lia))
    as (_ & H1 & H2 & H3).
  split; [exact H1|]. split; [exact H2|exact H3].
Defined.

Lemma children_when_dot_is_self_witness :
  (bind (ChildrenField_value "bar" Bar n_foo) (list_of 4) (start sample_doc)).1
  = Return [VRecord 0; VRecord 1; VRecord 2] /\
  trace (bind (ChildrenField_value "bar" Bar n_foo) (list_of 4) (start sample_doc)).2
  = [(n_foo, "bar"); (n_bar 1, "."); (n_bar 2, "."); (n_bar 3, "."); (n_bar 4, ".")].
Proof.
  destruct (children_when_dot_is_self (builtins := sample_builtins)
              "bar" Bar n_foo (start sample_doc) 4
              ltac:(intros n; reflexivity) ltac:(vm_compute; lia))
    as (H1 & _ & H2 & _).
  split; [exact H1|exact H2].
Defined.

Lemma boolean_ignores_case_witness :
  (value (BooleanField_init "@bool" (Some ["YES"; "Y"]) (Some ["No"])) (n_baz 1)
     (start sample_doc)).1
  = (value (BooleanField_init "@bool" (Some ["yes"; "y"]) (Some ["NO"])) (n_baz 1)
       (start sample_doc)).1.
Proof.
  exact (proj1 (boolean_ignores_case (builtins := sample_builtins)
                  "@bool" (Some ["YES"; "Y"]) (Some ["yes"; "y"])
                  (Some ["No"]) (Some ["NO"]) (n_baz 1)
                  (start sample_doc) (start sample_doc) eq_refl eq_refl eq_refl)).
Defined.

Lemma kluge_date_keeps_dotless_witness :
  kluge_date "2006-10-28 00:00:00" = "2006-10-28 00:00:00".
Proof. exact (proj1 (kluge_date_keeps_dotless "2006-10-28 00:00:00" eq_refl)). Defined.

Lemma filter_guards_access_witness :
  let w1 := (bind (records Bar n_doc "//bar") (list_of 4) (start sample_doc)).2 in
  lazies w1 !! 17
  = Some {| cache := VNone; lz_dom := n_bar 4; lz_field := IntField "@arg" |} /\
  exists v, (Lazy_call 17 w1).1 = Return v.
Proof.
  intros w1. split; [reflexivity|].
  assert (forall n w0, doc w0 = doc (start sample_doc) ->
            record_filter Bar (doc (start sample_doc)) n = true ->
            exists v, (value (IntField "@arg") n w0).1 = Return v) as Hguard.
  { intros n w0 Hd Hacc. simpl. unfold IntField_value. munfold.
    rewrite TextField_value_eq, Hd. simpl in *.
    destruct n as [| | | | |i|i|i| | |i|i|i|i]; try discriminate.
    do 5 (destruct i as [|i]; try discriminate; try (eexists; reflexivity)). }
  destruct (filter_guards_access (builtins := sample_builtins)
              Bar n_doc "//bar" (start sample_doc) 4 (IntField "@arg")
              Hguard ltac:(vm_compute; lia) 17
              {| cache := VNone; lz_dom := n_bar 4; lz_field := IntField "@arg" |}
              eq_refl ltac:(simpl; lia) eq_refl)
    as (_ & _ & H).
  exact H.
Defined.

Lemma next_is_one_step_witness :
  let w0 := (records Bar n_doc "//bar" (start sample_doc)).2 in
  (next 0 w0).1 = Return (Some (VRecord 0)) /\
  (r_dom <$> objects (next 0 w0).2) = [n_bar 1].
Proof.
  intros w0.
  destruct (next_is_one_step (float := sample_float_t) (datetime := sample_datetime)
              Bar 0 (GRecords (R_new Bar n_doc "//bar")) w0 eq_refl eq_refl)
    as (_ & H).
  change (pending (doc w0) (GRecords (R_new Bar n_doc "//bar")))
    with [n_bar 1; n_bar 2; n_bar 4] in H.
  destruct H as (H1 & H2 & _). split; [exact H1|]. now rewrite H2.
Defined.

End SampleProperties.
